(** * Uniform cubic B-spline trajectory in R3 (taser/kontiki)

    A shallow embedding of
    [include/taser/trajectories/uniform_r3_spline_trajectory.h]:
    the read path [UniformR3SplineView::Evaluate] and the write and
    registration path of [UniformR3SplineTrajectory] ([AppendKnot],
    [ControlPoint], [AddToProblem]).

    Conventions of the embedding.
    - The scalar type [T] of the templates is idealised as the field of real
      numbers [R]: the statements below are about the algebra the code
      performs, not about rounding.
    - [int] values are integers [Z]; where the source converts to [size_t]
      (the knot count [N] and the comparison [i0 > N - 4]) the conversion is
      written out modulo 2^64, and the [int] arithmetic of [AddToProblem]
      has no defined behaviour when a result leaves the range of [int].
    - A reference into the parameter storage is the index of its block.  The
      storage hands out a reference for the blocks it stores and for no
      other index; what lies behind a reference is looked up in the storage
      when it is read.
    - A call either returns, throws one of the two standard exceptions the
      header throws, or has no defined behaviour (asking the storage for a
      block it does not store, signed overflow, reading a local that was
      never assigned).
    - The line printed on [std::cout] by [AddToProblem] is not modelled. *)

From Stdlib Require Import String.
From Stdlib Require Import Reals ZArith List Bool Lia Lra.
From Stdlib Require Import Zfloor.
Import ListNotations.

Local Open Scope Z_scope.

(** ** Outcomes of a call *)

(** The exceptions the header throws.  The text of the range error is printed
    from the query time, the index and the knot count and is not modelled;
    the text of the length error is a constant. *)
Inductive exn : Type :=
| range_error                    (* std::range_error  *)
| length_error (what : string).  (* std::length_error *)

Inductive outcome (A : Type) : Type :=
| Returned (a : A)
| Threw (e : exn)
| Undefined.

Arguments Returned {A} a.
Arguments Threw {A} e.
Arguments Undefined {A}.

Definition bind {A B : Type} (m : outcome A) (k : A -> outcome B) : outcome B :=
  match m with
  | Returned a => k a
  | Threw e => Threw e
  | Undefined => Undefined
  end.

Notation "x <- m ;; k" := (bind m (fun x => k))
  (at level 61, m at next level, right associativity).
Notation "' p <- m ;; k" := (bind m (fun p => k))
  (at level 61, p pattern, m at next level, right associativity).

(** Reading a local variable: defined only once it has been assigned. *)
Definition read {A : Type} (local : option A) : outcome A :=
  match local with
  | Some a => Returned a
  | None => Undefined
  end.

(** [for (int i = lo; i < hi; ++i)]: the values [i] takes, in order. *)
Definition int_range (lo hi : Z) : list Z :=
  map (fun k => lo + Z.of_nat k) (seq 0 (Z.to_nat (hi - lo))).

(** A loop whose body may fail: the body runs on each index in turn and the
    first failure ends the loop. *)
Fixpoint for_each {S : Type} (indices : list Z) (body : Z -> S -> outcome S) (s : S)
  : outcome S :=
  match indices with
  | [] => Returned s
  | i :: rest => s' <- body i s ;; for_each rest body s'
  end.

(** ** Machine integers *)

Definition size_t_modulus : Z := 2 ^ 64.
Definition int_min : Z := - 2 ^ 31.
Definition int_max : Z := 2 ^ 31 - 1.

(** Conversion of an integer value to [size_t]. *)
Definition to_size_t (z : Z) : Z := z mod size_t_modulus.

Definition is_size_t (z : Z) : Prop := 0 <= z < size_t_modulus.
Definition is_int (z : Z) : Prop := int_min <= z <= int_max.

(** The result of an [int] operation: a value outside the range of [int] is
    a signed overflow, which has no defined behaviour. *)
Definition int_result (z : Z) : outcome Z :=
  if (int_min <=? z) && (z <=? int_max) then Returned z else Undefined.

(** A loop over an output state whose body may fail: the state is kept as the
    failing iteration found it. *)
Fixpoint for_each_output {S : Type} (indices : list Z) (body : S -> Z -> outcome S)
    (s : S) : outcome unit * S :=
  match indices with
  | [] => (Returned tt, s)
  | i :: rest =>
      match body s i with
      | Returned s' => for_each_output rest body s'
      | Threw e => (Threw e, s)
      | Undefined => (Undefined, s)
      end
  end.

(** ** Fixed-size Eigen vectors and matrices over the scalar type *)

Record Vector3 : Type := V3 { v3x : R; v3y : R; v3z : R }.
Record Vector4 : Type := V4 { v4_0 : R; v4_1 : R; v4_2 : R; v4_3 : R }.
(** A 4x4 matrix, given by its rows. *)
Record Matrix4 : Type := Mat4 { row0 : Vector4; row1 : Vector4; row2 : Vector4; row3 : Vector4 }.
Record Quaternion : Type := Quat { qw : R; qx : R; qy : R; qz : R }.

Definition setZero : Vector3 := V3 0 0 0.
Definition setIdentity : Quaternion := Quat 1 0 0 0.

(** [s * v] for a 3-vector. *)
Definition scale3 (s : R) (v : Vector3) : Vector3 :=
  V3 (s * v3x v)%R (s * v3y v)%R (s * v3z v)%R.

(** [a + b] for 3-vectors, the right-hand side of [a += b]. *)
Definition add3 (a b : Vector3) : Vector3 :=
  V3 (v3x a + v3x b)%R (v3y a + v3y b)%R (v3z a + v3z b)%R.

(** [s * v] for a 4-vector. *)
Definition scale4 (s : R) (v : Vector4) : Vector4 :=
  V4 (s * v4_0 v)%R (s * v4_1 v)%R (s * v4_2 v)%R (s * v4_3 v)%R.

(** Coefficient access [v(k)]; Eigen defines it for [0 <= k < 4] only. *)
Definition coeff (v : Vector4) (k : Z) : outcome R :=
  match k with
  | 0 => Returned (v4_0 v)
  | 1 => Returned (v4_1 v)
  | 2 => Returned (v4_2 v)
  | 3 => Returned (v4_3 v)
  | _ => Undefined
  end.

(** Column [j] of a matrix. *)
Definition column (m : Matrix4) (proj : Vector4 -> R) : Vector4 :=
  V4 (proj (row0 m)) (proj (row1 m)) (proj (row2 m)) (proj (row3 m)).

Definition dot4 (a b : Vector4) : R :=
  (v4_0 a * v4_0 b + v4_1 a * v4_1 b + v4_2 a * v4_2 b + v4_3 a * v4_3 b)%R.

(** [U.transpose() * m]: the row vector [U] times the matrix, one entry per
    column of [m]. *)
Definition transpose_times (U : Vector4) (m : Matrix4) : Vector4 :=
  V4 (dot4 U (column m v4_0)) (dot4 U (column m v4_1))
     (dot4 U (column m v4_2)) (dot4 U (column m v4_3)).

(** ** Parameter storage *)

(** Modelled from the spec: the parameter-storage collaborator
    ([dataholders/vectorholder.h] is not among the sources).  It owns a
    growable sequence of parameter blocks; [AddParameter(size)] allocates a
    block at the end and returns its index, [Parameter(index)] hands out a
    reference to a stored block and checks nothing: an index outside the
    stored blocks has no defined behaviour.  Every block this trajectory
    allocates has size 3, so a block is a [Vector3]. *)
Definition DataHolder : Type := list Vector3.

(** A reference to a parameter block (the [T*] of the source). *)
Inductive ParameterRef : Type :=
| BlockRef (index : Z).

Definition block_index (p : ParameterRef) : Z :=
  match p with BlockRef i => i end.

(** Modelled from the spec: [holder_->Parameter(i)] of the absent storage
    collaborator, the reference to block [i].  The bounds are the caller's
    business: for an index that is not among the stored blocks (a negative
    [int] turns into a huge [size_t]) the access is undefined. *)
Definition holder_Parameter (h : DataHolder) (i : Z) : outcome ParameterRef :=
  if (0 <=? i) && (i <? Z.of_nat (length h)) then Returned (BlockRef i) else Undefined.

(** Modelled from the spec: [holder_->AddParameter(size)] of the absent
    storage collaborator allocates one block at the end and returns its
    index.  The contents of a freshly allocated block are unspecified; a
    zeroed block stands for them, and [AppendKnot] overwrites the block
    before anything can read it. *)
Definition AddParameter (h : DataHolder) (ndims : Z) : Z * DataHolder :=
  (Z.of_nat (length h), h ++ [setZero]).

(** Reading through a reference. *)
Definition load (h : DataHolder) (p : ParameterRef) : outcome Vector3 :=
  if block_index p <? 0 then Undefined
  else match nth_error h (Z.to_nat (block_index p)) with
       | Some v => Returned v
       | None => Undefined
       end.

Fixpoint set_nth (h : DataHolder) (k : nat) (v : Vector3) : option DataHolder :=
  match h, k with
  | [], _ => None
  | _ :: rest, O => Some (v :: rest)
  | b :: rest, S k' =>
      match set_nth rest k' v with
      | Some rest' => Some (b :: rest')
      | None => None
      end
  end.

(** Writing through a reference. *)
Definition store (h : DataHolder) (p : ParameterRef) (v : Vector3) : outcome DataHolder :=
  if block_index p <? 0 then Undefined
  else match set_nth h (Z.to_nat (block_index p)) v with
       | Some h' => Returned h'
       | None => Undefined
       end.

(** ** Spline metadata and the view *)

(** Modelled from the spec: [SplineMeta] is declared in [spline_base.h], which
    is not among the sources: the time of the first knot, the knot spacing
    and the knot count. *)
Record SplineMeta : Type := Meta { meta_t0 : R; meta_dt : R; meta_n : Z }.

(** The view: a holder of control points together with the metadata. *)
Record UniformR3SplineView : Type := View { view_holder : DataHolder; view_meta : SplineMeta }.

(** Modelled from the spec: the accessors [dt()], [t0()] and [NumKnots()] of
    the shared spline base (absent) read the metadata. *)
Definition dt (self : UniformR3SplineView) : R := meta_dt (view_meta self).
Definition t0 (self : UniformR3SplineView) : R := meta_t0 (view_meta self).
Definition NumKnots (self : UniformR3SplineView) : Z := meta_n (view_meta self).

(** Modelled from the spec: the time-indexing utility of the shared spline
    base (absent): [i0 = floor((t - t0)/dt)], [u = (t - t0)/dt - i0]. *)
Definition CalculateIndexAndInterpolationAmount (self : UniformR3SplineView) (t : R)
  : Z * R :=
  let s := ((t - t0 self) / dt self)%R in
  let i0 := Zfloor s in
  (i0, (s - IZR i0)%R).

(** [ControlPoint(i)] and [MutableControlPoint(i)] map the block that
    [holder_->Parameter(i)] hands out. *)
Definition ControlPoint (self : UniformR3SplineView) (i : Z) : outcome ParameterRef :=
  holder_Parameter (view_holder self) i.

Definition MutableControlPoint (self : UniformR3SplineView) (i : Z)
  : outcome ParameterRef :=
  holder_Parameter (view_holder self) i.

(** Modelled from the spec: the result object of an evaluation,
    [TrajectoryEvaluation<T>], is declared in [trajectory.h] (absent); it
    holds position, velocity, acceleration, orientation and angular
    velocity. *)
Record TrajectoryEvaluation : Type := Evaluation {
  position : Vector3;
  velocity : Vector3;
  acceleration : Vector3;
  orientation : Quaternion;
  angular_velocity : Vector3
}.

Definition set_position (r : TrajectoryEvaluation) (p : Vector3) :=
  Evaluation p (velocity r) (acceleration r) (orientation r) (angular_velocity r).
Definition set_velocity (r : TrajectoryEvaluation) (v : Vector3) :=
  Evaluation (position r) v (acceleration r) (orientation r) (angular_velocity r).
Definition set_acceleration (r : TrajectoryEvaluation) (a : Vector3) :=
  Evaluation (position r) (velocity r) a (orientation r) (angular_velocity r).
Definition set_orientation (r : TrajectoryEvaluation) (q : Quaternion) :=
  Evaluation (position r) (velocity r) (acceleration r) q (angular_velocity r).
Definition set_angular_velocity (r : TrajectoryEvaluation) (w : Vector3) :=
  Evaluation (position r) (velocity r) (acceleration r) (orientation r) w.

(** [flags & bit], as a condition. *)
Definition wants (flags bit : Z) : bool := negb (Z.land flags bit =? 0).

(** The constants declared outside the header, taken as parameters: the basis
    matrix [M] and the values of the five evaluation flags. *)
Record Environment : Type := Env {
  M : Matrix4;
  EvalPosition : Z;
  EvalVelocity : Z;
  EvalAcceleration : Z;
  EvalOrientation : Z;
  EvalAngularVelocity : Z
}.

(** ** [UniformR3SplineView::Evaluate] *)

(** One flagged statement of the loop body, [acc += B(i - i0) * cp]: it reads
    the weight vector, its coefficient and the control point. *)
Definition accumulate (self : UniformR3SplineView) (B : option Vector4)
    (k : Z) (cp : ParameterRef) (acc : Vector3) : outcome Vector3 :=
  Bk <- read B ;;
  w <- coeff Bk k ;;
  c <- load (view_holder self) cp ;;
  Returned (add3 acc (scale3 w c)).

(** The body of [for (int i = i0; i < i0 + 4; ++i)]. *)
Definition Evaluate_body (env : Environment) (self : UniformR3SplineView)
    (flags : Z) (i0 : Z) (Bp Bv Ba : option Vector4)
    (i : Z) (result : TrajectoryEvaluation) : outcome TrajectoryEvaluation :=
  cp <- ControlPoint self i ;;
  result <- (if wants flags (EvalPosition env)
             then p <- accumulate self Bp (i - i0) cp (position result) ;;
                  Returned (set_position result p)
             else Returned result) ;;
  result <- (if wants flags (EvalVelocity env)
             then v <- accumulate self Bv (i - i0) cp (velocity result) ;;
                  Returned (set_velocity result v)
             else Returned result) ;;
  result <- (if wants flags (EvalAcceleration env)
             then a <- accumulate self Ba (i - i0) cp (acceleration result) ;;
                  Returned (set_acceleration result a)
             else Returned result) ;;
  Returned result.

(** [fresh] is the object [std::make_unique<TrajectoryEvaluation<T>>()]
    creates: the source leaves its contents to the default constructors, so
    they are an input of the model. *)
Definition Evaluate (env : Environment) (self : UniformR3SplineView)
    (fresh : TrajectoryEvaluation) (t : R) (flags : Z)
  : outcome TrajectoryEvaluation :=
  let result := fresh in
  let '(i0, u) := CalculateIndexAndInterpolationAmount self t in
  let N := to_size_t (NumKnots self) in
  if (N <? 4) || (i0 <? 0) || (to_size_t i0 >? to_size_t (N - 4))
  then Threw range_error
  else
    let dt_inv := (1 / dt self)%R in
    let u2 := if wants flags (EvalPosition env) || wants flags (EvalVelocity env)
              then Some (u ^ 2)%R else None in
    let u3 := if wants flags (EvalPosition env)
              then Some (u ^ 3)%R else None in
    '(Bp, result) <-
      (if wants flags (EvalPosition env)
       then u2' <- read u2 ;;
            u3' <- read u3 ;;
            let Up := V4 1 u u2' u3' in
            Returned (Some (transpose_times Up (M env)), set_position result setZero)
       else Returned (None, result)) ;;
    '(Bv, result) <-
      (if wants flags (EvalVelocity env)
       then u2' <- read u2 ;;
            let Uv := scale4 dt_inv (V4 0 1 (2 * u) (3 * u2')) in
            Returned (Some (transpose_times Uv (M env)), set_velocity result setZero)
       else Returned (None, result)) ;;
    '(Ba, result) <-
      (if wants flags (EvalAcceleration env)
       then let Ua := scale4 (dt_inv ^ 2) (V4 0 0 2 (6 * u)) in
            Returned (Some (transpose_times Ua (M env)), set_acceleration result setZero)
       else Returned (None, result)) ;;
    result <- for_each (int_range i0 (i0 + 4))
                       (Evaluate_body env self flags i0 Bp Bv Ba) result ;;
    let result := if wants flags (EvalOrientation env)
                  then set_orientation result setIdentity else result in
    let result := if wants flags (EvalAngularVelocity env)
                  then set_angular_velocity result setZero else result in
    Returned result.

(** ** [UniformR3SplineTrajectory] *)

(** Modelled from the spec: the base class [SplinedTrajectoryBase] (absent)
    gives the trajectory its holder and its metadata ([holder_], [meta_]);
    [AsView()] is the view on both. *)
Record UniformR3SplineTrajectory : Type :=
  Trajectory { holder_ : DataHolder; meta_ : SplineMeta }.

Definition AsView (self : UniformR3SplineTrajectory) : UniformR3SplineView :=
  View (holder_ self) (meta_ self).

(** [ControlPoint(i)] of the trajectory, read. *)
Definition Trajectory_ControlPoint (self : UniformR3SplineTrajectory) (i : Z)
  : outcome Vector3 :=
  cp <- MutableControlPoint (AsView self) i ;;
  load (holder_ self) cp.

Definition AppendKnot (self : UniformR3SplineTrajectory) (cp : Vector3)
  : outcome UniformR3SplineTrajectory :=
  let '(i, holder1) := AddParameter (holder_ self) 3 in
  block <- MutableControlPoint (View holder1 (meta_ self)) i ;;
  holder2 <- store holder1 block cp ;;
  let m := meta_ self in
  Returned (Trajectory holder2 (Meta (meta_t0 m) (meta_dt m) (meta_n m + 1))).

(** What [AddToProblem] writes to: the optimizer problem (the parameter blocks
    added to it, in order), the output metadata and the two output vectors. *)
Record Outputs : Type := Out {
  problem : list (ParameterRef * Z);
  meta : SplineMeta;
  parameter_blocks : list ParameterRef;
  parameter_sizes : list Z
}.

(** The body of [for (int i = i1; i < i2 + 4; ++i)]. *)
Definition AddToProblem_body (self : UniformR3SplineTrajectory) (o : Outputs) (i : Z)
  : outcome Outputs :=
  ptr <- holder_Parameter (holder_ self) i ;;
  let size := 3 in
  Returned (Out (problem o ++ [(ptr, size)])
                (meta o)
                (parameter_blocks o ++ [ptr])
                (parameter_sizes o ++ [size])).

(** [times] is the list of [(t1, t2)] pairs.  The locals [t1], [t2] are
    unassigned before the loop over [times]; past the size check the loop
    runs exactly once, so their initial value [(0, 0)] here is never used.
    [i2 + 4] and [i2 + 4 - i1 + 1] are [int] expressions.  A call gives its
    outcome together with the outputs as it leaves them (as the failing
    step found them, when the behaviour is undefined). *)
Definition AddToProblem (self : UniformR3SplineTrajectory)
    (times : list (R * R)) (o : Outputs) : outcome unit * Outputs :=
  if negb (Z.of_nat (length times) =? 1)
  then (Threw (length_error "Multi times not implemented yet"), o)
  else
    let '(t1, t2) := fold_left (fun _ tt => (fst tt, snd tt)) times (0%R, 0%R) in
    let '(i1, _) := CalculateIndexAndInterpolationAmount (AsView self) t1 in
    let '(i2, _) := CalculateIndexAndInterpolationAmount (AsView self) t2 in
    match int_result (i2 + 4) with
    | Returned bound =>
        match for_each_output (int_range i1 bound) (AddToProblem_body self) o with
        | (Returned _, o) =>
            let o := Out (problem o)
                         (Meta (meta_t0 (meta o)) (dt (AsView self)) (meta_n (meta o)))
                         (parameter_blocks o) (parameter_sizes o) in
            match (a <- int_result (i2 + 4) ;;
                   b <- int_result (a - i1) ;;
                   int_result (b + 1)) with
            | Returned n =>
                let m := Meta (t0 (AsView self) + IZR i1 * dt (AsView self))%R
                              (dt (AsView self))
                              n in
                (Returned tt, Out (problem o) m (parameter_blocks o) (parameter_sizes o))
            | Threw e => (Threw e, o)
            | Undefined => (Undefined, o)
            end
        | failed => failed
        end
    | Threw e => (Threw e, o)
    | Undefined => (Undefined, o)
    end.

(** ** The closed forms the specification gives *)

(** The monomial vector of each derivative order. *)
Definition position_row (u : R) : Vector4 := V4 1 u (u ^ 2) (u ^ 3).
Definition velocity_row (dt_ u : R) : Vector4 :=
  scale4 (1 / dt_) (V4 0 1 (2 * u) (3 * u ^ 2)).
Definition acceleration_row (dt_ u : R) : Vector4 :=
  scale4 ((1 / dt_) ^ 2) (V4 0 0 2 (6 * u)).

(** The weighted sum over the four active control points, accumulated from
    zero in index order. *)
Definition blend (w : Vector4) (c0 c1 c2 c3 : Vector3) : Vector3 :=
  add3 (add3 (add3 (add3 setZero (scale3 (v4_0 w) c0))
                   (scale3 (v4_1 w) c1))
             (scale3 (v4_2 w) c2))
       (scale3 (v4_3 w) c3).

(** The segment index and the local parameter of a query time. *)
Definition index_of (self : UniformR3SplineView) (t : R) : Z :=
  fst (CalculateIndexAndInterpolationAmount self t).
Definition local_of (self : UniformR3SplineView) (t : R) : R :=
  snd (CalculateIndexAndInterpolationAmount self t).

(** The window check of [Evaluate], in plain integers. *)
Definition outside_window (n i0 : Z) : Prop := n < 4 \/ i0 < 0 \/ i0 > n - 4.

(** The data-model invariant: the knot count is the number of stored control
    points. *)
Definition knots_stored (h : DataHolder) (m : SplineMeta) : Prop :=
  meta_n m = Z.of_nat (length h).

(** What a call inside the window returns: each requested field is the blend
    of its weights, each other field is as the fresh object had it. *)
Definition evaluated (env : Environment) (dt_ u : R) (flags : Z)
    (fresh : TrajectoryEvaluation) (c0 c1 c2 c3 : Vector3) : TrajectoryEvaluation :=
  Evaluation
    (if wants flags (EvalPosition env)
     then blend (transpose_times (position_row u) (M env)) c0 c1 c2 c3
     else position fresh)
    (if wants flags (EvalVelocity env)
     then blend (transpose_times (velocity_row dt_ u) (M env)) c0 c1 c2 c3
     else velocity fresh)
    (if wants flags (EvalAcceleration env)
     then blend (transpose_times (acceleration_row dt_ u) (M env)) c0 c1 c2 c3
     else acceleration fresh)
    (if wants flags (EvalOrientation env) then setIdentity else orientation fresh)
    (if wants flags (EvalAngularVelocity env) then setZero else angular_velocity fresh).

(** The coordinates of a 3-vector and of a weight vector. *)
Definition components : list (Vector3 -> R) := [v3x; v3y; v3z].
Definition weights : list (Vector4 -> R) := [v4_0; v4_1; v4_2; v4_3].

(** The rows whose scalar multiples the velocity and the acceleration rows
    are: the first and the second derivative of [1, u, u^2, u^3] in [u]. *)
Definition position_row' (u : R) : Vector4 := V4 0 1 (2 * u) (3 * u ^ 2).
Definition position_row'' (u : R) : Vector4 := V4 0 0 2 (6 * u).

(** A segment as a function of time: the local parameter of the segment with
    index [i0], and the three fields blended from the control points
    [c0 .. c3] there. *)
Definition segment_local (self : UniformR3SplineView) (i0 : Z) (tau : R) : R :=
  ((tau - t0 self) / dt self - IZR i0)%R.

Definition segment_position (env : Environment) (self : UniformR3SplineView)
    (i0 : Z) (c0 c1 c2 c3 : Vector3) (tau : R) : Vector3 :=
  blend (transpose_times (position_row (segment_local self i0 tau)) (M env)) c0 c1 c2 c3.

Definition segment_velocity (env : Environment) (self : UniformR3SplineView)
    (i0 : Z) (c0 c1 c2 c3 : Vector3) (tau : R) : Vector3 :=
  blend (transpose_times (velocity_row (dt self) (segment_local self i0 tau)) (M env))
        c0 c1 c2 c3.

Definition segment_acceleration (env : Environment) (self : UniformR3SplineView)
    (i0 : Z) (c0 c1 c2 c3 : Vector3) (tau : R) : Vector3 :=
  blend (transpose_times (acceleration_row (dt self) (segment_local self i0 tau)) (M env))
        c0 c1 c2 c3.

(** The fields [Evaluate] returns, as functions of the query time (zero where
    the call does not return). *)
Definition field_at (field : TrajectoryEvaluation -> Vector3) (env : Environment)
    (self : UniformR3SplineView) (fresh : TrajectoryEvaluation) (flags : Z) (tau : R)
  : Vector3 :=
  match Evaluate env self fresh tau flags with
  | Returned r => field r
  | _ => setZero
  end.

(** A blend of scalars, one coordinate of [blend]. *)
Definition scalar_blend (w : Vector4) (k0 k1 k2 k3 : R) : R :=
  (0 + v4_0 w * k0 + v4_1 w * k1 + v4_2 w * k2 + v4_3 w * k3)%R.

(** The sub-window a registration describes to the optimizer: the blocks
    behind the exposed references, under the metadata written. *)
Fixpoint load_all (h : DataHolder) (refs : list ParameterRef) : outcome (list Vector3) :=
  match refs with
  | [] => Returned []
  | p :: rest => c <- load h p ;; cs <- load_all h rest ;; Returned (c :: cs)
  end.

Definition registered_view (self : UniformR3SplineTrajectory) (o : Outputs)
  : outcome UniformR3SplineView :=
  blocks <- load_all (holder_ self) (parameter_blocks o) ;;
  Returned (View blocks (meta o)).

(** Modelled from the spec: the constructors are in the absent base class; a
    new trajectory stores no control point and counts no knot.  The
    trajectories a caller can build are an empty one, grown by [AppendKnot]. *)
Inductive built : UniformR3SplineTrajectory -> Prop :=
| built_empty (t0_ dt_ : R) : built (Trajectory [] (Meta t0_ dt_ 0))
| built_append (self self' : UniformR3SplineTrajectory) (cp : Vector3) :
    built self -> AppendKnot self cp = Returned self' -> built self'.

(** A computation that returns or is undefined, but raises nothing. *)
Definition never_throws {A : Type} (m : outcome A) : Prop :=
  forall e, m <> Threw e.

(** ** A running example

    The example of the specification: knots at [t0 = 0], [dt = 1], six
    control points.  The header does not show the basis matrix nor the flag
    values; the example takes the uniform cubic B-spline basis and one bit
    per flag. *)
Definition cubic_basis : Matrix4 :=
  Mat4 (V4 (1 / 6) (4 / 6) (1 / 6) 0)
       (V4 (- 3 / 6) 0 (3 / 6) 0)
       (V4 (3 / 6) (- 6 / 6) (3 / 6) 0)
       (V4 (- 1 / 6) (3 / 6) (- 3 / 6) (1 / 6)).

Definition example_env : Environment := Env cubic_basis 1 2 4 8 16.

Definition example_holder : DataHolder :=
  [V3 0 0 0; V3 1 0 0; V3 2 1 0; V3 3 1 1; V3 4 2 1; V3 5 2 2].

Definition example_view : UniformR3SplineView :=
  View example_holder (Meta 0 1 6).

Definition example_trajectory : UniformR3SplineTrajectory :=
  Trajectory example_holder (Meta 0 1 6).

Definition example_fresh : TrajectoryEvaluation :=
  Evaluation (V3 7 7 7) (V3 8 8 8) (V3 9 9 9) (Quat 0 1 0 0) (V3 5 5 5).

Definition empty_outputs : Outputs := Out [] (Meta 0 0 0) [] [].

(** ** Operations on control points used to state further properties *)

(** [MutableControlPoint(i) = v] on a view: the assignment writes the mapped
    block in place; the metadata is not touched. *)
Definition assign_ControlPoint (self : UniformR3SplineView) (i : Z) (v : Vector3)
  : outcome UniformR3SplineView :=
  block <- MutableControlPoint self i ;;
  h <- store (view_holder self) block v ;;
  Returned (View h (view_meta self)).

(** [ControlPoint(i) = v] on the trajectory, whose [ControlPoint] hands out
    the mutable map of the view. *)
Definition Trajectory_assign_ControlPoint (self : UniformR3SplineTrajectory)
    (i : Z) (v : Vector3) : outcome UniformR3SplineTrajectory :=
  block <- MutableControlPoint (AsView self) i ;;
  h <- store (holder_ self) block v ;;
  Returned (Trajectory h (meta_ self)).

(** [AppendKnot] called on each point of a list in turn. *)
Fixpoint AppendKnots (self : UniformR3SplineTrajectory) (points : list Vector3)
  : outcome UniformR3SplineTrajectory :=
  match points with
  | [] => Returned self
  | p :: rest => self' <- AppendKnot self p ;; AppendKnots self' rest
  end.

(** [a - b] for 3-vectors. *)
Definition sub3 (a b : Vector3) : Vector3 :=
  V3 (v3x a - v3x b)%R (v3y a - v3y b)%R (v3z a - v3z b)%R.

(** The weight of the [k]-th control point of a window, [k] in [0 .. 3]. *)
Definition weight_at (w : Vector4) (k : Z) : R :=
  match k with
  | 0 => v4_0 w
  | 1 => v4_1 w
  | 2 => v4_2 w
  | _ => v4_3 w
  end.

(** Control points added and scaled block by block. *)
Definition holder_add (a b : DataHolder) : DataHolder :=
  map (fun ab => add3 (fst ab) (snd ab)) (combine a b).

Definition holder_scale (s : R) (a : DataHolder) : DataHolder :=
  map (scale3 s) a.

(** ** Conditions under which a registration is defined *)

(** The holder stores block [i]. *)
Definition stored (h : DataHolder) (i : Z) : Prop := 0 <= i < Z.of_nat (length h).

(** The [int] arithmetic of a registration stays in range: the indices [i1]
    and [i2] are [int] values and so are [i2 + 4], [i2 + 4 - i1] and
    [i2 + 4 - i1 + 1]. *)
Definition registration_fits_int (i1 i2 : Z) : Prop :=
  is_int i1 /\ is_int i2 /\ is_int (i2 + 4) /\ is_int (i2 + 4 - i1)
  /\ is_int (i2 + 4 - i1 + 1).

(** ** Basic facts *)

Lemma int_range_4 (i0 : Z) :
  int_range i0 (i0 + 4) = [i0; i0 + 1; i0 + 2; i0 + 3].
Proof.
  unfold int_range.
  replace (i0 + 4 - i0) with 4 by lia.
  simpl. now rewrite Z.add_0_r.
Qed.

Lemma int_range_length (lo hi : Z) :
  length (int_range lo hi) = Z.to_nat (hi - lo).
Proof. unfold int_range. now rewrite length_map, length_seq. Qed.

Lemma int_range_In (lo hi i : Z) :
  In i (int_range lo hi) <-> lo <= i < hi.
Proof.
  unfold int_range. rewrite in_map_iff. split.
  - intros [k [<- Hk]]. apply in_seq in Hk. lia.
  - intros H. exists (Z.to_nat (i - lo)). split; [lia|].
    apply in_seq. lia.
Qed.

Lemma int_range_nth (lo hi : Z) (k : nat) :
  (k < Z.to_nat (hi - lo))%nat ->
  nth_error (int_range lo hi) k = Some (lo + Z.of_nat k).
Proof.
  intros Hk. unfold int_range.
  rewrite nth_error_map, nth_error_seq.
  destruct (Nat.ltb_spec k (Z.to_nat (hi - lo))); [reflexivity|lia].
Qed.

Lemma to_size_t_small (z : Z) : is_size_t z -> to_size_t z = z.
Proof. unfold is_size_t, to_size_t. intros H. now apply Z.mod_small. Qed.

Lemma is_int_lt_modulus (z : Z) : is_int z -> z < size_t_modulus.
Proof. unfold is_int, int_max, size_t_modulus. lia. Qed.

(** The mixed signed/unsigned comparison of the source agrees with the plain
    window check: the two earlier disjuncts shield the unsigned subtraction
    and the conversion of [i0]. *)
Lemma window_check_spec (n i0 : Z) :
  is_size_t n -> is_int i0 ->
  (to_size_t n <? 4) || (i0 <? 0) || (to_size_t i0 >? to_size_t (to_size_t n - 4)) = true
  <-> outside_window n i0.
Proof.
  intros Hn Hi. pose proof (is_int_lt_modulus _ Hi) as Hlt.
  rewrite (to_size_t_small n Hn). unfold outside_window.
  destruct (Z.ltb_spec n 4) as [H4|H4]; [simpl; intuition lia|].
  destruct (Z.ltb_spec i0 0) as [H0|H0]; [simpl; intuition lia|].
  simpl.
  rewrite (to_size_t_small i0) by (unfold is_size_t; lia).
  rewrite (to_size_t_small (n - 4)) by (unfold is_size_t in *; lia).
  rewrite Z.gtb_ltb. destruct (Z.ltb_spec (n - 4) i0); intuition lia.
Qed.

(** Why [N < 4] comes first: with three knots the unsigned [N - 4] wraps to
    the largest [size_t], and the comparison alone would let every index
    through. *)
Lemma unsigned_difference_wraps :
  to_size_t (to_size_t 3 - 4) = size_t_modulus - 1
  /\ (to_size_t 0 >? to_size_t (to_size_t 3 - 4)) = false.
Proof. split; reflexivity. Qed.

Lemma load_in_range (h : DataHolder) (i : Z) :
  0 <= i < Z.of_nat (length h) ->
  exists c, load h (BlockRef i) = Returned c.
Proof.
  intros Hi. unfold load. simpl.
  destruct (Z.ltb_spec i 0); [lia|].
  destruct (nth_error h (Z.to_nat i)) eqn:E; [eauto|].
  apply nth_error_None in E. lia.
Qed.

Lemma load_stored (h : DataHolder) (i : Z) (c : Vector3) :
  load h (BlockRef i) = Returned c -> 0 <= i < Z.of_nat (length h).
Proof.
  unfold load. cbn [block_index]. intros Hc.
  destruct (Z.ltb_spec i 0); [discriminate|].
  destruct (nth_error h (Z.to_nat i)) eqn:E; [|discriminate].
  assert (Z.to_nat i < length h)%nat by (apply nth_error_Some; congruence). lia.
Qed.

Lemma holder_Parameter_stored (h : DataHolder) (i : Z) :
  0 <= i < Z.of_nat (length h) -> holder_Parameter h i = Returned (BlockRef i).
Proof.
  intros Hi. unfold holder_Parameter.
  destruct (Z.leb_spec 0 i); [|lia]. destruct (Z.ltb_spec i (Z.of_nat (length h))); [|lia].
  reflexivity.
Qed.

Lemma holder_Parameter_not_stored (h : DataHolder) (i : Z) :
  i < 0 \/ Z.of_nat (length h) <= i -> holder_Parameter h i = Undefined.
Proof.
  intros Hi. unfold holder_Parameter.
  destruct (Z.leb_spec 0 i); [|reflexivity].
  destruct (Z.ltb_spec i (Z.of_nat (length h))); [lia|reflexivity].
Qed.

Lemma Parameter_of_load (h : DataHolder) (i : Z) (c : Vector3) :
  load h (BlockRef i) = Returned c -> holder_Parameter h i = Returned (BlockRef i).
Proof. intros Hc. apply holder_Parameter_stored. exact (load_stored h i c Hc). Qed.

Lemma load_not_stored (h : DataHolder) (i : Z) :
  i < 0 \/ Z.of_nat (length h) <= i -> load h (BlockRef i) = Undefined.
Proof.
  intros Hi. unfold load. cbn [block_index].
  destruct (Z.ltb_spec i 0); [reflexivity|].
  destruct (nth_error h (Z.to_nat i)) eqn:E; [|reflexivity].
  assert (Z.to_nat i < length h)%nat by (apply nth_error_Some; congruence). lia.
Qed.

(** Reading through the reference [Parameter(i)] hands out is reading block
    [i]: both are defined on the stored blocks only. *)
Lemma load_through_Parameter (h : DataHolder) (i : Z) :
  (cp <- holder_Parameter h i ;; load h cp) = load h (BlockRef i).
Proof.
  destruct (Z_lt_le_dec i 0) as [Hneg|Hpos];
    [rewrite holder_Parameter_not_stored, load_not_stored by lia; reflexivity|].
  destruct (Z_lt_le_dec i (Z.of_nat (length h))) as [Hin|Hout].
  - rewrite holder_Parameter_stored by lia. reflexivity.
  - rewrite holder_Parameter_not_stored, load_not_stored by lia. reflexivity.
Qed.

Lemma int_result_ok (z : Z) : is_int z -> int_result z = Returned z.
Proof.
  unfold is_int, int_result. intros [Hlo Hhi].
  destruct (Z.leb_spec int_min z); [|lia]. destruct (Z.leb_spec z int_max); [|lia].
  reflexivity.
Qed.

Lemma int_result_never_throws (z : Z) (e : exn) : int_result z <> Threw e.
Proof.
  unfold int_result. destruct ((int_min <=? z) && (z <=? int_max)); discriminate.
Qed.

(** ** [Evaluate] inside the window *)

Lemma Evaluate_in_window (env : Environment) (self : UniformR3SplineView)
    (fresh : TrajectoryEvaluation) (t : R) (flags : Z) (c0 c1 c2 c3 : Vector3) :
  let i0 := index_of self t in
  let N := to_size_t (NumKnots self) in
  (N <? 4) || (i0 <? 0) || (to_size_t i0 >? to_size_t (N - 4)) = false ->
  load (view_holder self) (BlockRef i0) = Returned c0 ->
  load (view_holder self) (BlockRef (i0 + 1)) = Returned c1 ->
  load (view_holder self) (BlockRef (i0 + 2)) = Returned c2 ->
  load (view_holder self) (BlockRef (i0 + 3)) = Returned c3 ->
  Evaluate env self fresh t flags
  = Returned (evaluated env (dt self) (local_of self t) flags fresh c0 c1 c2 c3).
Proof.
  intros i0 N Hguard L0 L1 L2 L3. destruct fresh as [p0 v0 a0 q0 w0].
  unfold Evaluate, evaluated, local_of, CalculateIndexAndInterpolationAmount.
  cbv zeta. simpl fst; simpl snd.
  change (Zfloor ((t - t0 self) / dt self)) with i0.
  fold N. rewrite Hguard. rewrite int_range_4.
  unfold for_each, Evaluate_body, accumulate, ControlPoint.
  rewrite (Parameter_of_load _ _ _ L0), (Parameter_of_load _ _ _ L1),
    (Parameter_of_load _ _ _ L2), (Parameter_of_load _ _ _ L3).
  replace (i0 - i0) with 0 by lia.
  replace (i0 + 1 - i0) with 1 by lia.
  replace (i0 + 2 - i0) with 2 by lia.
  replace (i0 + 3 - i0) with 3 by lia.
  destruct (wants flags (EvalPosition env));
    destruct (wants flags (EvalVelocity env));
    destruct (wants flags (EvalAcceleration env));
    destruct (wants flags (EvalOrientation env));
    destruct (wants flags (EvalAngularVelocity env));
    cbn [bind read coeff orb]; rewrite ?L0, ?L1, ?L2, ?L3; reflexivity.
Qed.

(** ** [Evaluate] raises nothing but the range error of its window check *)

Lemma never_throws_bind {A B : Type} (m : outcome A) (k : A -> outcome B) :
  never_throws m -> (forall a, never_throws (k a)) -> never_throws (m' <- m ;; k m').
Proof.
  unfold never_throws. intros Hm Hk e. destruct m as [a| e' |]; simpl.
  - apply Hk.
  - intros _. now apply (Hm e').
  - discriminate.
Qed.

Lemma never_throws_Returned {A : Type} (a : A) : never_throws (Returned a).
Proof. intros e. discriminate. Qed.

Lemma never_throws_read {A : Type} (local : option A) : never_throws (read local).
Proof. intros e. destruct local; discriminate. Qed.

Lemma never_throws_coeff (v : Vector4) (k : Z) : never_throws (coeff v k).
Proof.
  intros e. unfold coeff.
  destruct k as [|[[|[]|]|[|[]|]|]|]; discriminate.
Qed.

Lemma never_throws_load (h : DataHolder) (p : ParameterRef) : never_throws (load h p).
Proof.
  intros e. unfold load.
  destruct (block_index p <? 0); [discriminate|].
  destruct (nth_error h (Z.to_nat (block_index p))); discriminate.
Qed.

Lemma never_throws_Parameter (h : DataHolder) (i : Z) :
  never_throws (holder_Parameter h i).
Proof.
  intros e. unfold holder_Parameter.
  destruct ((0 <=? i) && (i <? Z.of_nat (length h))); discriminate.
Qed.

Create HintDb throws.
#[local] Hint Resolve never_throws_Returned never_throws_read never_throws_coeff
  never_throws_load never_throws_Parameter : throws.

Lemma never_throws_accumulate self B k cp acc :
  never_throws (accumulate self B k cp acc).
Proof.
  unfold accumulate.
  repeat (apply never_throws_bind; [auto with throws|intros ?]).
  auto with throws.
Qed.

Lemma never_throws_Evaluate_body env self flags i0 Bp Bv Ba i result :
  never_throws (Evaluate_body env self flags i0 Bp Bv Ba i result).
Proof.
  unfold Evaluate_body.
  apply never_throws_bind; [apply never_throws_Parameter|intros cp].
  repeat (apply never_throws_bind;
          [ match goal with
            | |- never_throws (if ?c then _ else _) => destruct c
            end;
            [ apply never_throws_bind;
              [apply never_throws_accumulate|intros ?; auto with throws]
            | auto with throws ]
          | intros ? ]).
  auto with throws.
Qed.

Lemma never_throws_for_each {S : Type} (body : Z -> S -> outcome S) indices s :
  (forall i s', never_throws (body i s')) ->
  never_throws (for_each indices body s).
Proof.
  intros Hbody. revert s.
  induction indices as [|i rest IH]; intros s; simpl.
  - auto with throws.
  - apply never_throws_bind; auto.
Qed.

Lemma Evaluate_past_check_never_throws env self fresh t flags :
  let i0 := index_of self t in
  let N := to_size_t (NumKnots self) in
  (N <? 4) || (i0 <? 0) || (to_size_t i0 >? to_size_t (N - 4)) = false ->
  never_throws (Evaluate env self fresh t flags).
Proof.
  intros i0 N Hguard.
  unfold Evaluate, CalculateIndexAndInterpolationAmount. cbv zeta.
  change (Zfloor ((t - t0 self) / dt self)) with i0. fold N. rewrite Hguard.
  repeat (apply never_throws_bind;
          [ match goal with
            | |- never_throws (if ?c then _ else _) => destruct c
            end;
            repeat (apply never_throws_bind; [auto with throws|intros ?]);
            auto with throws
          | intros [? ?] ]).
  apply never_throws_bind.
  - apply never_throws_for_each. intros. apply never_throws_Evaluate_body.
  - intros ?. auto with throws.
Qed.

Lemma Evaluate_outside_window env self fresh t flags :
  let i0 := index_of self t in
  let N := to_size_t (NumKnots self) in
  (N <? 4) || (i0 <? 0) || (to_size_t i0 >? to_size_t (N - 4)) = true ->
  Evaluate env self fresh t flags = Threw range_error.
Proof.
  intros i0 N Hguard.
  unfold Evaluate, CalculateIndexAndInterpolationAmount. cbv zeta.
  change (Zfloor ((t - t0 self) / dt self)) with i0. fold N. now rewrite Hguard.
Qed.

Lemma window_stored (h : DataHolder) (n i0 : Z) :
  n <= Z.of_nat (length h) -> 0 <= i0 <= n - 4 ->
  exists c0 c1 c2 c3,
    load h (BlockRef i0) = Returned c0 /\
    load h (BlockRef (i0 + 1)) = Returned c1 /\
    load h (BlockRef (i0 + 2)) = Returned c2 /\
    load h (BlockRef (i0 + 3)) = Returned c3.
Proof.
  intros Hn Hi.
  destruct (load_in_range h i0) as [c0 L0]; [lia|].
  destruct (load_in_range h (i0 + 1)) as [c1 L1]; [lia|].
  destruct (load_in_range h (i0 + 2)) as [c2 L2]; [lia|].
  destruct (load_in_range h (i0 + 3)) as [c3 L3]; [lia|].
  now exists c0, c1, c2, c3.
Qed.

(** Inside the window of a well-formed view every call returns the closed
    form over the four stored control points. *)
Lemma Evaluate_returns (env : Environment) (self : UniformR3SplineView)
    (fresh : TrajectoryEvaluation) (t : R) (flags : Z) :
  is_size_t (NumKnots self) -> is_int (index_of self t) ->
  knots_stored (view_holder self) (view_meta self) ->
  4 <= NumKnots self -> 0 <= index_of self t <= NumKnots self - 4 ->
  exists c0 c1 c2 c3,
    load (view_holder self) (BlockRef (index_of self t)) = Returned c0 /\
    load (view_holder self) (BlockRef (index_of self t + 1)) = Returned c1 /\
    load (view_holder self) (BlockRef (index_of self t + 2)) = Returned c2 /\
    load (view_holder self) (BlockRef (index_of self t + 3)) = Returned c3 /\
    Evaluate env self fresh t flags
    = Returned (evaluated env (dt self) (local_of self t) flags fresh c0 c1 c2 c3).
Proof.
  intros Hn Hi Hst H4 Hw.
  destruct (window_stored (view_holder self) (NumKnots self) (index_of self t))
    as (c0 & c1 & c2 & c3 & L0 & L1 & L2 & L3); [unfold knots_stored, NumKnots in *; lia|lia|].
  exists c0, c1, c2, c3. repeat (split; [assumption|]).
  apply Evaluate_in_window; try assumption.
  apply not_true_is_false. rewrite window_check_spec by assumption.
  unfold outside_window. lia.
Qed.

Lemma example_index_inside : index_of example_view (5 / 2) = 2.
Proof.
  unfold index_of, CalculateIndexAndInterpolationAmount, t0, dt. simpl.
  apply Zfloor_eq. lra.
Qed.

Lemma local_of_eq (self : UniformR3SplineView) (t : R) :
  local_of self t = ((t - t0 self) / dt self - IZR (index_of self t))%R.
Proof. reflexivity. Qed.

Lemma example_local_inside : local_of example_view (5 / 2) = (1 / 2)%R.
Proof.
  rewrite local_of_eq, example_index_inside. unfold t0, dt. simpl. lra.
Qed.

Lemma example_index_outside : index_of example_view (9 / 2) = 4.
Proof.
  unfold index_of, CalculateIndexAndInterpolationAmount, t0, dt. simpl.
  apply Zfloor_eq. lra.
Qed.

Lemma example_knots_stored : knots_stored (view_holder example_view) (view_meta example_view).
Proof. reflexivity. Qed.

Lemma is_size_t_6 : is_size_t 6.
Proof. unfold is_size_t, size_t_modulus. lia. Qed.

Lemma is_int_small (z : Z) : -100 <= z <= 100 -> is_int z.
Proof. unfold is_int, int_min, int_max. lia. Qed.

(** ** The claims *)

(** C1. For every query time whose index fits an [int] and every knot count
    that fits a [size_t], [Evaluate] raises the range error exactly when
    [n < 4] or [i0 < 0] or [i0 > n - 4]; in that case no result is produced
    (nothing is clamped or extrapolated); and when [n >= 4] and
    [0 <= i0 <= n - 4] on a view that stores its [n] knots the call returns
    a result. *)
Theorem Evaluate_range_error_iff (env : Environment) (self : UniformR3SplineView)
    (fresh : TrajectoryEvaluation) (t : R) (flags : Z) :
  is_size_t (NumKnots self) -> is_int (index_of self t) ->
  (Evaluate env self fresh t flags = Threw range_error
   <-> (NumKnots self < 4 \/ index_of self t < 0
        \/ index_of self t > NumKnots self - 4))
  /\ ((NumKnots self < 4 \/ index_of self t < 0
       \/ index_of self t > NumKnots self - 4) ->
      forall r, Evaluate env self fresh t flags <> Returned r)
  /\ (knots_stored (view_holder self) (view_meta self) ->
      4 <= NumKnots self -> 0 <= index_of self t <= NumKnots self - 4 ->
      exists r, Evaluate env self fresh t flags = Returned r).
Proof.
  intros Hn Hi.
  pose proof (window_check_spec _ _ Hn Hi) as Hspec. unfold outside_window in Hspec.
  assert (Hout : (NumKnots self < 4 \/ index_of self t < 0
                  \/ index_of self t > NumKnots self - 4) ->
                 Evaluate env self fresh t flags = Threw range_error).
  { intros H. apply Evaluate_outside_window. now apply Hspec. }
  split; [split|split].
  - intros Hthrew.
    destruct ((to_size_t (NumKnots self) <? 4) || (index_of self t <? 0)
              || (to_size_t (index_of self t) >? to_size_t (to_size_t (NumKnots self) - 4)))
      eqn:Hguard.
    + now apply Hspec.
    + exfalso.
      now apply (Evaluate_past_check_never_throws env self fresh t flags Hguard range_error).
  - exact Hout.
  - intros H r. rewrite (Hout H). discriminate.
  - intros Hst H4 Hw.
    destruct (Evaluate_returns env self fresh t flags Hn Hi Hst H4 Hw)
      as (c0 & c1 & c2 & c3 & _ & _ & _ & _ & E).
    eauto.
Qed.

Lemma Evaluate_range_error_iff_witness :
  Evaluate example_env example_view example_fresh (9 / 2) 1 = Threw range_error
  /\ exists r, Evaluate example_env example_view example_fresh (5 / 2) 1 = Returned r.
Proof.
  split.
  - apply (Evaluate_range_error_iff example_env example_view example_fresh (9 / 2) 1).
    + exact is_size_t_6.
    + rewrite example_index_outside. apply is_int_small. lia.
    + rewrite example_index_outside. unfold NumKnots. simpl. lia.
  - apply (Evaluate_range_error_iff example_env example_view example_fresh (5 / 2) 1).
    + exact is_size_t_6.
    + rewrite example_index_inside. apply is_int_small. lia.
    + exact example_knots_stored.
    + unfold NumKnots. simpl. lia.
    + rewrite example_index_inside. unfold NumKnots. simpl. lia.
Defined.

(** C3. For every valid query (index inside the window of a view that stores
    its knots) [Evaluate] returns a result in which each requested field is
    the sum, started from zero and taken in index order over the four active
    control points, of weight times control point, where the weights are the
    row vector of that order times the basis matrix [M]: [1, u, u^2, u^3]
    for the position, [(1/dt) * [0, 1, 2u, 3u^2]] for the velocity and
    [(1/dt)^2 * [0, 0, 2, 6u]] for the acceleration. *)
Theorem Evaluate_rows_and_blend (env : Environment) (self : UniformR3SplineView)
    (fresh : TrajectoryEvaluation) (t : R) (flags : Z) :
  is_size_t (NumKnots self) -> is_int (index_of self t) ->
  knots_stored (view_holder self) (view_meta self) ->
  4 <= NumKnots self -> 0 <= index_of self t <= NumKnots self - 4 ->
  let i0 := index_of self t in
  let u := local_of self t in
  let dt_inv := (1 / dt self)%R in
  exists c0 c1 c2 c3 r,
    (cp <- ControlPoint self i0 ;; load (view_holder self) cp) = Returned c0 /\
    (cp <- ControlPoint self (i0 + 1) ;; load (view_holder self) cp) = Returned c1 /\
    (cp <- ControlPoint self (i0 + 2) ;; load (view_holder self) cp) = Returned c2 /\
    (cp <- ControlPoint self (i0 + 3) ;; load (view_holder self) cp) = Returned c3 /\
    Evaluate env self fresh t flags = Returned r /\
    (wants flags (EvalPosition env) = true ->
     let Bp := transpose_times (V4 1 u (u ^ 2) (u ^ 3)) (M env) in
     position r
     = add3 (add3 (add3 (add3 setZero (scale3 (v4_0 Bp) c0)) (scale3 (v4_1 Bp) c1))
                  (scale3 (v4_2 Bp) c2)) (scale3 (v4_3 Bp) c3)) /\
    (wants flags (EvalVelocity env) = true ->
     let Bv := transpose_times (scale4 dt_inv (V4 0 1 (2 * u) (3 * u ^ 2))) (M env) in
     velocity r
     = add3 (add3 (add3 (add3 setZero (scale3 (v4_0 Bv) c0)) (scale3 (v4_1 Bv) c1))
                  (scale3 (v4_2 Bv) c2)) (scale3 (v4_3 Bv) c3)) /\
    (wants flags (EvalAcceleration env) = true ->
     let Ba := transpose_times (scale4 (dt_inv ^ 2) (V4 0 0 2 (6 * u))) (M env) in
     acceleration r
     = add3 (add3 (add3 (add3 setZero (scale3 (v4_0 Ba) c0)) (scale3 (v4_1 Ba) c1))
                  (scale3 (v4_2 Ba) c2)) (scale3 (v4_3 Ba) c3)).
Proof.
  intros Hn Hi Hst H4 Hw i0 u dt_inv.
  destruct (Evaluate_returns env self fresh t flags Hn Hi Hst H4 Hw)
    as (c0 & c1 & c2 & c3 & L0 & L1 & L2 & L3 & E).
  exists c0, c1, c2, c3, (evaluated env (dt self) u flags fresh c0 c1 c2 c3).
  unfold ControlPoint. rewrite !load_through_Parameter.
  repeat (split; [assumption|]).
  unfold evaluated; cbn [position velocity acceleration].
  repeat split; intros ->; reflexivity.
Qed.

Lemma Evaluate_rows_and_blend_witness :
  exists r,
    Evaluate example_env example_view example_fresh (5 / 2) 7 = Returned r /\
    position r = V3 (7 / 2) (3 / 2) 1 /\
    velocity r = V3 1 (3 / 4) (1 / 4) /\
    acceleration r = V3 0 0 0.
Proof.
  destruct (Evaluate_rows_and_blend example_env example_view example_fresh (5 / 2) 7)
    as (c0 & c1 & c2 & c3 & r & L0 & L1 & L2 & L3 & E & Hp & Hv & Ha).
  - exact is_size_t_6.
  - rewrite example_index_inside. apply is_int_small. lia.
  - exact example_knots_stored.
  - unfold NumKnots. simpl. lia.
  - rewrite example_index_inside. unfold NumKnots. simpl. lia.
  - exists r. split; [exact E|].
    rewrite example_index_inside in L0, L1, L2, L3.
    injection L0 as <-. injection L1 as <-. injection L2 as <-. injection L3 as <-.
    rewrite example_local_inside in Hp, Hv, Ha.
    rewrite (Hp eq_refl), (Hv eq_refl), (Ha eq_refl).
    unfold add3, scale3, transpose_times, dot4, column, scale4, setZero, dt; simpl.
    repeat split; f_equal; lra.
Defined.

(** C7. For every valid query, a call returns whatever flags are passed, and
    every field whose flag is clear is as the freshly constructed result had
    it; in particular, with the flag constants on distinct bits, a call with
    [EvalPosition] alone returns and leaves velocity and acceleration
    untouched. *)
Theorem Evaluate_writes_only_requested (env : Environment) (self : UniformR3SplineView)
    (fresh : TrajectoryEvaluation) (t : R) :
  is_size_t (NumKnots self) -> is_int (index_of self t) ->
  knots_stored (view_holder self) (view_meta self) ->
  4 <= NumKnots self -> 0 <= index_of self t <= NumKnots self - 4 ->
  (forall flags, exists r,
     Evaluate env self fresh t flags = Returned r /\
     (wants flags (EvalPosition env) = false -> position r = position fresh) /\
     (wants flags (EvalVelocity env) = false -> velocity r = velocity fresh) /\
     (wants flags (EvalAcceleration env) = false -> acceleration r = acceleration fresh) /\
     (wants flags (EvalOrientation env) = false -> orientation r = orientation fresh) /\
     (wants flags (EvalAngularVelocity env) = false ->
      angular_velocity r = angular_velocity fresh))
  /\ (Z.land (EvalPosition env) (EvalVelocity env) = 0 ->
      Z.land (EvalPosition env) (EvalAcceleration env) = 0 ->
      exists r,
        Evaluate env self fresh t (EvalPosition env) = Returned r /\
        velocity r = velocity fresh /\
        acceleration r = acceleration fresh).
Proof.
  intros Hn Hi Hst H4 Hw.
  assert (Hall : forall flags, exists r,
     Evaluate env self fresh t flags = Returned r /\
     (wants flags (EvalPosition env) = false -> position r = position fresh) /\
     (wants flags (EvalVelocity env) = false -> velocity r = velocity fresh) /\
     (wants flags (EvalAcceleration env) = false -> acceleration r = acceleration fresh) /\
     (wants flags (EvalOrientation env) = false -> orientation r = orientation fresh) /\
     (wants flags (EvalAngularVelocity env) = false ->
      angular_velocity r = angular_velocity fresh)).
  { intros flags.
    destruct (Evaluate_returns env self fresh t flags Hn Hi Hst H4 Hw)
      as (c0 & c1 & c2 & c3 & _ & _ & _ & _ & E).
    eexists. split; [exact E|].
    unfold evaluated; cbn [position velocity acceleration orientation angular_velocity].
    repeat split; intros ->; reflexivity. }
  split; [exact Hall|].
  intros HV HA.
  destruct (Hall (EvalPosition env)) as (r & E & _ & Hv & Ha & _).
  exists r. split; [exact E|]. split.
  - apply Hv. unfold wants. now rewrite HV.
  - apply Ha. unfold wants. now rewrite HA.
Qed.

Lemma Evaluate_writes_only_requested_witness :
  exists r,
    Evaluate example_env example_view example_fresh (5 / 2) 1 = Returned r /\
    velocity r = V3 8 8 8 /\
    acceleration r = V3 9 9 9.
Proof.
  apply (Evaluate_writes_only_requested example_env example_view example_fresh (5 / 2)).
  - exact is_size_t_6.
  - rewrite example_index_inside. apply is_int_small. lia.
  - exact example_knots_stored.
  - unfold NumKnots. simpl. lia.
  - rewrite example_index_inside. unfold NumKnots. simpl. lia.
  - reflexivity.
  - reflexivity.
Defined.

(** ** [AddToProblem] *)

Lemma AddToProblem_loop (self : UniformR3SplineTrajectory) (indices : list Z) (o : Outputs) :
  (forall i, In i indices -> stored (holder_ self) i) ->
  for_each_output indices (AddToProblem_body self) o
  = (Returned tt,
     Out (problem o ++ map (fun i => (BlockRef i, 3)) indices)
         (meta o)
         (parameter_blocks o ++ map BlockRef indices)
         (parameter_sizes o ++ map (fun _ => 3) indices)).
Proof.
  revert o. induction indices as [|i rest IH]; intros o Hall; simpl.
  - rewrite !app_nil_r. now destruct o.
  - unfold AddToProblem_body at 1.
    rewrite holder_Parameter_stored by (apply Hall; now left). cbn [bind].
    rewrite IH by (intros j Hj; apply Hall; now right). simpl.
    now rewrite <- !app_assoc.
Qed.

Lemma AddToProblem_loop_never_throws (self : UniformR3SplineTrajectory)
    (indices : list Z) (o : Outputs) (e : exn) :
  fst (for_each_output indices (AddToProblem_body self) o) <> Threw e.
Proof.
  revert o. induction indices as [|i rest IH]; intros o; simpl; [discriminate|].
  unfold AddToProblem_body at 1.
  destruct (holder_Parameter (holder_ self) i) as [p| |] eqn:E; cbn [bind fst];
    [apply IH|exfalso; exact (never_throws_Parameter _ _ _ E)|discriminate].
Qed.

Lemma AddToProblem_loop_undefined (self : UniformR3SplineTrajectory)
    (indices : list Z) (o : Outputs) :
  (exists i, In i indices /\ ~ stored (holder_ self) i) ->
  fst (for_each_output indices (AddToProblem_body self) o) = Undefined.
Proof.
  revert o. induction indices as [|i rest IH]; intros o (j & Hj & Hnot); [destruct Hj|].
  simpl. unfold AddToProblem_body at 1.
  destruct (holder_Parameter (holder_ self) i) as [p| |] eqn:E; cbn [bind fst].
  - apply IH. exists j. split; [|exact Hnot].
    destruct Hj as [<-|Hj]; [|exact Hj]. exfalso. apply Hnot.
    unfold holder_Parameter in E. unfold stored.
    destruct (Z.leb_spec 0 i); [|discriminate].
    destruct (Z.ltb_spec i (Z.of_nat (length (holder_ self)))); [lia|discriminate].
  - exfalso. exact (never_throws_Parameter _ _ _ E).
  - reflexivity.
Qed.

Lemma AddToProblem_single (self : UniformR3SplineTrajectory) (t1 t2 : R) (o : Outputs) :
  let i1 := index_of (AsView self) t1 in
  let i2 := index_of (AsView self) t2 in
  let exposed := int_range i1 (i2 + 4) in
  registration_fits_int i1 i2 ->
  (forall i, i1 <= i <= i2 + 3 -> stored (holder_ self) i) ->
  AddToProblem self [(t1, t2)] o
  = (Returned tt,
     Out (problem o ++ map (fun i => (BlockRef i, 3)) exposed)
         (Meta (t0 (AsView self) + IZR i1 * dt (AsView self))%R
               (dt (AsView self))
               (i2 + 4 - i1 + 1))
         (parameter_blocks o ++ map BlockRef exposed)
         (parameter_sizes o ++ map (fun _ => 3) exposed)).
Proof.
  intros i1 i2 exposed (Hi1 & Hi2 & Hbound & Hdiff & Hn) Hstored.
  unfold AddToProblem. cbn [length Z.of_nat Z.eqb negb fold_left fst snd].
  unfold CalculateIndexAndInterpolationAmount. cbv zeta.
  change (Zfloor ((t1 - t0 (AsView self)) / dt (AsView self))) with i1.
  change (Zfloor ((t2 - t0 (AsView self)) / dt (AsView self))) with i2.
  rewrite (int_result_ok _ Hbound). cbn [bind].
  rewrite AddToProblem_loop
    by (intros i Hi; apply Hstored; apply int_range_In in Hi; lia).
  rewrite (int_result_ok _ Hdiff). cbn [bind]. rewrite (int_result_ok _ Hn).
  reflexivity.
Qed.

Lemma AddToProblem_single_never_throws (self : UniformR3SplineTrajectory)
    (t1 t2 : R) (o : Outputs) (e : exn) :
  fst (AddToProblem self [(t1, t2)] o) <> Threw e.
Proof.
  unfold AddToProblem. cbn [length Z.of_nat Z.eqb negb fold_left fst snd].
  unfold CalculateIndexAndInterpolationAmount. cbv zeta.
  set (i1 := Zfloor ((t1 - t0 (AsView self)) / dt (AsView self))).
  set (i2 := Zfloor ((t2 - t0 (AsView self)) / dt (AsView self))).
  destruct (int_result (i2 + 4)) as [bound| |] eqn:Eb; cbn [fst];
    [|exfalso; exact (int_result_never_throws _ _ Eb)|discriminate].
  pose proof (AddToProblem_loop_never_throws self (int_range i1 bound) o) as Hloop.
  destruct (for_each_output (int_range i1 bound) (AddToProblem_body self) o) as [[u| |] o'];
    cbn [fst] in *; [|apply Hloop|discriminate].
  cbn [bind].
  destruct (int_result (bound - i1)) as [d| |] eqn:Ed; cbn [bind fst];
    [|exfalso; exact (int_result_never_throws _ _ Ed)|discriminate].
  destruct (int_result (d + 1)) as [n| |] eqn:En; cbn [fst];
    [discriminate|exfalso; exact (int_result_never_throws _ _ En)|discriminate].
Qed.

Lemma AddToProblem_single_undefined (self : UniformR3SplineTrajectory)
    (t1 t2 : R) (o : Outputs) :
  let i1 := index_of (AsView self) t1 in
  let i2 := index_of (AsView self) t2 in
  (exists i, i1 <= i <= i2 + 3 /\ ~ stored (holder_ self) i) ->
  fst (AddToProblem self [(t1, t2)] o) = Undefined.
Proof.
  intros i1 i2 (j & Hj & Hnot).
  unfold AddToProblem. cbn [length Z.of_nat Z.eqb negb fold_left fst snd].
  unfold CalculateIndexAndInterpolationAmount. cbv zeta.
  change (Zfloor ((t1 - t0 (AsView self)) / dt (AsView self))) with i1.
  change (Zfloor ((t2 - t0 (AsView self)) / dt (AsView self))) with i2.
  destruct (int_result (i2 + 4)) as [bound| |] eqn:Eb; cbn [fst];
    [|exfalso; exact (int_result_never_throws _ _ Eb)|reflexivity].
  assert (bound = i2 + 4).
  { unfold int_result in Eb.
    destruct ((int_min <=? i2 + 4) && (i2 + 4 <=? int_max)); [|discriminate].
    now injection Eb as <-. }
  subst bound.
  pose proof (AddToProblem_loop_undefined self (int_range i1 (i2 + 4)) o) as Hloop.
  destruct (for_each_output (int_range i1 (i2 + 4)) (AddToProblem_body self) o)
    as [[u| |] o'] eqn:El; cbn [fst] in *.
  - assert (H : Returned u = @Undefined unit); [|discriminate].
    apply Hloop. exists j. split; [apply int_range_In; lia|exact Hnot].
  - assert (H : Threw e = @Undefined unit); [|discriminate].
    apply Hloop. exists j. split; [apply int_range_In; lia|exact Hnot].
  - reflexivity.
Qed.

Lemma AddToProblem_not_single (self : UniformR3SplineTrajectory)
    (times : list (R * R)) (o : Outputs) :
  length times <> 1%nat ->
  AddToProblem self times o = (Threw (length_error "Multi times not implemented yet"), o).
Proof.
  intros Hlen. unfold AddToProblem.
  destruct (Z.eqb_spec (Z.of_nat (length times)) 1) as [E|E]; [lia|reflexivity].
Qed.

Lemma example_index_half : index_of example_view (1 / 2) = 0.
Proof.
  unfold index_of, CalculateIndexAndInterpolationAmount, t0, dt. simpl.
  apply Zfloor_eq. lra.
Qed.

Lemma example_index_three_halves : index_of example_view (3 / 2) = 1.
Proof.
  unfold index_of, CalculateIndexAndInterpolationAmount, t0, dt. simpl.
  apply Zfloor_eq. lra.
Qed.

Lemma registration_fits_int_small (i1 i2 : Z) :
  -100 <= i1 <= 100 -> -100 <= i2 <= 100 -> registration_fits_int i1 i2.
Proof.
  unfold registration_fits_int, is_int, int_min, int_max. lia.
Qed.

(** C4. For every single interval [(t1, t2)], with [i1] and [i2] the indices
    of [t1] and [t2], on which the call is defined (the [int] arithmetic on
    the indices stays in range and the holder stores the blocks
    [i1 .. i2 + 3]), registration returns and appends to the outputs exactly
    the knots [i1 .. i2 + 3], in increasing order, one parameter block of
    size 3 each (to the block vector, the size vector and the problem), each
    the reference the holder hands out for that index, and sets the metadata
    to [dt' = dt], [n' = i2 + 4 - i1 + 1], [t0' = t0 + i1 * dt]. *)
Theorem AddToProblem_exposes_window (self : UniformR3SplineTrajectory)
    (t1 t2 : R) (o : Outputs) :
  let i1 := index_of (AsView self) t1 in
  let i2 := index_of (AsView self) t2 in
  registration_fits_int i1 i2 ->
  (forall i, i1 <= i <= i2 + 3 -> stored (holder_ self) i) ->
  exists (exposed : list Z) (o' : Outputs),
    AddToProblem self [(t1, t2)] o = (Returned tt, o') /\
    (forall i, In i exposed <-> i1 <= i <= i2 + 3) /\
    (forall k, (k < length exposed)%nat -> nth_error exposed k = Some (i1 + Z.of_nat k)) /\
    (forall i, In i exposed -> holder_Parameter (holder_ self) i = Returned (BlockRef i)) /\
    parameter_blocks o' = parameter_blocks o ++ map BlockRef exposed /\
    parameter_sizes o' = parameter_sizes o ++ repeat 3 (length exposed) /\
    problem o' = problem o ++ map (fun i => (BlockRef i, 3)) exposed /\
    meta_dt (meta o') = dt (AsView self) /\
    meta_n (meta o') = i2 + 4 - i1 + 1 /\
    meta_t0 (meta o') = (t0 (AsView self) + IZR i1 * dt (AsView self))%R.
Proof.
  intros i1 i2 Hfits Hstored. exists (int_range i1 (i2 + 4)). eexists.
  split; [now apply AddToProblem_single|].
  cbn [parameter_blocks parameter_sizes problem meta meta_dt meta_n meta_t0].
  fold i1 i2.
  split; [|split; [|split; [|split; [|split; [|repeat split]]]]].
  - intros i. rewrite int_range_In. lia.
  - intros k Hk. rewrite int_range_length in Hk. now apply int_range_nth.
  - intros i Hi. apply holder_Parameter_stored, Hstored.
    apply int_range_In in Hi. lia.
  - reflexivity.
  - f_equal. generalize (int_range i1 (i2 + 4)). intros l.
    induction l as [|x l IH]; simpl; [reflexivity|now rewrite IH].
Qed.

Lemma AddToProblem_exposes_window_witness :
  exists o',
    AddToProblem example_trajectory [((1 / 2)%R, (3 / 2)%R)] empty_outputs
    = (Returned tt, o') /\
    parameter_blocks o' = [BlockRef 0; BlockRef 1; BlockRef 2; BlockRef 3; BlockRef 4] /\
    parameter_sizes o' = [3; 3; 3; 3; 3] /\
    meta_n (meta o') = 6.
Proof.
  destruct (AddToProblem_exposes_window example_trajectory (1 / 2) (3 / 2) empty_outputs)
    as (exposed & o' & E & Hin & Hnth & _ & Hb & Hs & _ & _ & Hn & _);
    change (AsView example_trajectory) with example_view in *;
    rewrite ?example_index_half, ?example_index_three_halves in *.
  - apply registration_fits_int_small; lia.
  - intros i Hi. unfold stored. simpl. lia.
  - assert (Hexposed : exposed = [0; 1; 2; 3; 4]).
    { assert (Hlen : length exposed = 5%nat).
      { destruct (Nat.lt_trichotomy (length exposed) 5) as [Hlt|[Heq|Hgt]]; [|exact Heq|].
        - exfalso. assert (H4 : In 4 exposed) by (apply Hin; lia).
          apply In_nth_error in H4. destruct H4 as [k Hk].
          assert (k < length exposed)%nat by (apply nth_error_Some; congruence).
          rewrite Hnth in Hk by assumption. injection Hk as Hk. lia.
        - exfalso. pose proof (Hnth 5%nat Hgt) as H5.
          apply nth_error_In in H5. apply Hin in H5. simpl in H5. lia. }
      destruct exposed as [|a [|b [|c [|d [|e [|f rest]]]]]]; try discriminate.
      pose proof (Hnth 0%nat ltac:(simpl; lia)) as H0.
      pose proof (Hnth 1%nat ltac:(simpl; lia)) as H1.
      pose proof (Hnth 2%nat ltac:(simpl; lia)) as H2.
      pose proof (Hnth 3%nat ltac:(simpl; lia)) as H3.
      pose proof (Hnth 4%nat ltac:(simpl; lia)) as H4.
      simpl in *. congruence. }
    subst exposed. exists o'. split; [exact E|].
    split; [exact Hb|]. split; [exact Hs|exact Hn].
Defined.

(** C8. Given more than one interval, registration raises the
    "not implemented" length error and leaves the problem, the metadata and
    both output vectors as they were. *)
Theorem AddToProblem_multi_not_implemented (self : UniformR3SplineTrajectory)
    (times : list (R * R)) (o : Outputs) :
  (1 < length times)%nat ->
  AddToProblem self times o = (Threw (length_error "Multi times not implemented yet"), o).
Proof.
  intros Hlen. apply AddToProblem_not_single. lia.
Qed.

Lemma AddToProblem_multi_not_implemented_witness :
  AddToProblem example_trajectory [(0%R, 1%R); (2%R, 3%R)] empty_outputs
  = (Threw (length_error "Multi times not implemented yet"), empty_outputs).
Proof.
  apply (AddToProblem_multi_not_implemented example_trajectory
           [(0%R, 1%R); (2%R, 3%R)] empty_outputs).
  simpl. lia.
Defined.

(** C9. Given no interval at all, registration raises the same length error
    as for several intervals, again leaving all outputs as they were: the
    guard asks for exactly one interval. *)
Theorem AddToProblem_empty_rejected (self : UniformR3SplineTrajectory) (o : Outputs) :
  AddToProblem self [] o = (Threw (length_error "Multi times not implemented yet"), o)
  /\ forall tt1 tt2 rest,
       AddToProblem self (tt1 :: tt2 :: rest) o = AddToProblem self [] o.
Proof.
  split.
  - now apply AddToProblem_not_single.
  - intros tt1 tt2 rest.
    rewrite !AddToProblem_not_single; [reflexivity|discriminate|simpl; lia].
Qed.

Lemma example_index_minus_half : index_of example_view (- 1 / 2) = -1.
Proof.
  unfold index_of, CalculateIndexAndInterpolationAmount, t0, dt. simpl.
  apply Zfloor_eq. simpl. lra.
Qed.

(** C10, as stated, fails where an index is not stored.  On the example
    trajectory (six knots) the interval [(-1/2, 1/2)] resolves to [i1 = -1]:
    the first iteration asks the holder for block [-1], which is undefined;
    the call does not return and no reference is exposed. *)
Lemma AddToProblem_unstored_index_is_undefined :
  fst (AddToProblem example_trajectory [((- 1 / 2)%R, (1 / 2)%R)] empty_outputs) = Undefined
  /\ parameter_blocks
       (snd (AddToProblem example_trajectory [((- 1 / 2)%R, (1 / 2)%R)] empty_outputs))
     = [].
Proof.
  unfold AddToProblem. cbn [length Z.of_nat Z.eqb negb fold_left fst snd].
  unfold CalculateIndexAndInterpolationAmount. cbv zeta.
  change (AsView example_trajectory) with example_view.
  change (Zfloor ((- 1 / 2 - t0 example_view) / dt example_view))
    with (index_of example_view (- 1 / 2)).
  change (Zfloor ((1 / 2 - t0 example_view) / dt example_view))
    with (index_of example_view (1 / 2)).
  rewrite example_index_minus_half, example_index_half.
  split; reflexivity.
Qed.

(** C10, amended. Registration validates no knot index: for every single
    interval whose [int] arithmetic stays in range it raises no exception
    (neither the range error nor any other), its outcome does not depend on
    the knot count [n], and whenever the holder stores the blocks
    [i1 .. i2 + 3] it returns having exposed exactly their references, also
    when [i2 + 3 >= n]; when one of these blocks is not stored (as when
    [i1 < 0]) the unchecked access has no defined behaviour, which is not an
    error raised. *)
Theorem AddToProblem_validates_nothing (self : UniformR3SplineTrajectory)
    (t1 t2 : R) (o : Outputs) :
  let i1 := index_of (AsView self) t1 in
  let i2 := index_of (AsView self) t2 in
  registration_fits_int i1 i2 ->
  (forall e, fst (AddToProblem self [(t1, t2)] o) <> Threw e)
  /\ (forall n',
        AddToProblem (Trajectory (holder_ self)
                        (Meta (meta_t0 (meta_ self)) (meta_dt (meta_ self)) n'))
                     [(t1, t2)] o
        = AddToProblem self [(t1, t2)] o)
  /\ ((forall i, i1 <= i <= i2 + 3 -> stored (holder_ self) i) ->
      fst (AddToProblem self [(t1, t2)] o) = Returned tt
      /\ parameter_blocks (snd (AddToProblem self [(t1, t2)] o))
         = parameter_blocks o ++ map BlockRef (int_range i1 (i2 + 4)))
  /\ ((exists i, i1 <= i <= i2 + 3 /\ ~ stored (holder_ self) i) ->
      fst (AddToProblem self [(t1, t2)] o) = Undefined).
Proof.
  intros i1 i2 Hfits.
  split; [intros e; apply AddToProblem_single_never_throws|].
  split; [|split].
  - intros n'. destruct self as [h [a b n]]. reflexivity.
  - intros Hstored. rewrite AddToProblem_single by assumption.
    cbn [fst snd parameter_blocks]. fold i1 i2. split; reflexivity.
  - intros Hnot. now apply AddToProblem_single_undefined.
Qed.

Lemma AddToProblem_validates_nothing_witness :
  fst (AddToProblem (Trajectory example_holder (Meta 0 1 2))
         [((1 / 2)%R, (3 / 2)%R)] empty_outputs) = Returned tt
  /\ parameter_blocks
       (snd (AddToProblem (Trajectory example_holder (Meta 0 1 2))
               [((1 / 2)%R, (3 / 2)%R)] empty_outputs))
     = [BlockRef 0; BlockRef 1; BlockRef 2; BlockRef 3; BlockRef 4].
Proof.
  assert (H1 : index_of (AsView (Trajectory example_holder (Meta 0 1 2))) (1 / 2) = 0)
    by exact example_index_half.
  assert (H2 : index_of (AsView (Trajectory example_holder (Meta 0 1 2))) (3 / 2) = 1)
    by exact example_index_three_halves.
  destruct (AddToProblem_validates_nothing (Trajectory example_holder (Meta 0 1 2))
              (1 / 2) (3 / 2) empty_outputs) as (_ & _ & Hret & _).
  - rewrite H1, H2. apply registration_fits_int_small; lia.
  - rewrite H1, H2 in Hret. apply Hret.
    intros i Hi. unfold stored. simpl. lia.
Defined.

(** ** [AppendKnot] *)

Lemma set_nth_last (h : DataHolder) (old v : Vector3) :
  set_nth (h ++ [old]) (length h) v = Some (h ++ [v]).
Proof.
  induction h as [|b rest IH]; simpl; [reflexivity|now rewrite IH].
Qed.

Lemma AppendKnot_eq (self : UniformR3SplineTrajectory) (cp : Vector3) :
  AppendKnot self cp
  = Returned (Trajectory (holder_ self ++ [cp])
                         (Meta (meta_t0 (meta_ self)) (meta_dt (meta_ self))
                               (meta_n (meta_ self) + 1))).
Proof.
  unfold AppendKnot, AddParameter, MutableControlPoint. cbn [view_holder].
  rewrite holder_Parameter_stored by (rewrite length_app; simpl; lia).
  cbn [bind]. unfold store. cbn [block_index].
  destruct (Z.ltb_spec (Z.of_nat (length (holder_ self))) 0) as [H|_]; [lia|].
  rewrite Nat2Z.id, set_nth_last. reflexivity.
Qed.

(** The trajectory's [ControlPoint(i)], read, is block [i] of its holder. *)
Lemma Trajectory_ControlPoint_load (self : UniformR3SplineTrajectory) (i : Z) :
  Trajectory_ControlPoint self i = load (holder_ self) (BlockRef i).
Proof.
  unfold Trajectory_ControlPoint, MutableControlPoint. cbn [AsView view_holder].
  apply load_through_Parameter.
Qed.

Lemma load_app_old (h : DataHolder) (extra : list Vector3) (i : Z) :
  0 <= i < Z.of_nat (length h) ->
  load (h ++ extra) (BlockRef i) = load h (BlockRef i).
Proof.
  intros Hi. unfold load. cbn [block_index].
  destruct (Z.ltb_spec i 0); [lia|].
  rewrite nth_error_app1 by lia. reflexivity.
Qed.

Lemma load_app_new (h : DataHolder) (v : Vector3) :
  load (h ++ [v]) (BlockRef (Z.of_nat (length h))) = Returned v.
Proof.
  unfold load. cbn [block_index].
  destruct (Z.ltb_spec (Z.of_nat (length h)) 0); [lia|].
  rewrite Nat2Z.id, nth_error_app2 by lia.
  now rewrite Nat.sub_diag.
Qed.

(** C6. On every trajectory whose knot count is the number of stored control
    points, [AppendKnot(point)] returns, increases [n] by exactly one, and
    [ControlPoint(n - 1)] with the new [n] reads back the appended point;
    every control point stored before reads as before, [t0] and [dt] are
    unchanged, and the knot count is again the number of stored points. *)
Theorem AppendKnot_appends (self : UniformR3SplineTrajectory) (point : Vector3) :
  knots_stored (holder_ self) (meta_ self) ->
  exists self',
    AppendKnot self point = Returned self' /\
    meta_n (meta_ self') = meta_n (meta_ self) + 1 /\
    Trajectory_ControlPoint self' (meta_n (meta_ self') - 1) = Returned point /\
    (forall i, 0 <= i < meta_n (meta_ self) ->
               Trajectory_ControlPoint self' i = Trajectory_ControlPoint self i) /\
    meta_t0 (meta_ self') = meta_t0 (meta_ self) /\
    meta_dt (meta_ self') = meta_dt (meta_ self) /\
    knots_stored (holder_ self') (meta_ self').
Proof.
  unfold knots_stored. intros Hst.
  eexists. split; [apply AppendKnot_eq|].
  cbn [holder_ meta_ meta_n meta_t0 meta_dt AsView].
  split; [reflexivity|]. split; [|split; [|split; [|split]]].
  - rewrite Trajectory_ControlPoint_load. cbn [holder_].
    replace (meta_n (meta_ self) + 1 - 1) with (Z.of_nat (length (holder_ self))) by lia.
    apply load_app_new.
  - intros i Hi. rewrite !Trajectory_ControlPoint_load. cbn [holder_].
    apply load_app_old. lia.
  - reflexivity.
  - reflexivity.
  - rewrite length_app. simpl. lia.
Qed.

Lemma AppendKnot_appends_witness :
  exists self',
    AppendKnot example_trajectory (V3 6 3 2) = Returned self' /\
    meta_n (meta_ self') = 7 /\
    Trajectory_ControlPoint self' 6 = Returned (V3 6 3 2).
Proof.
  destruct (AppendKnot_appends example_trajectory (V3 6 3 2))
    as (self' & E & Hn & Hcp & _).
  - reflexivity.
  - exists self'. split; [exact E|]. split; [exact Hn|].
    rewrite Hn in Hcp. exact Hcp.
Defined.

(** ** The knot count written by [AddToProblem] *)

(** Whenever the loop runs at all, the knot count written to the metadata is
    one more than the number of blocks the call exposes. *)
Lemma AddToProblem_meta_n_vs_exposed (self : UniformR3SplineTrajectory)
    (t1 t2 : R) (o : Outputs) :
  let i1 := index_of (AsView self) t1 in
  let i2 := index_of (AsView self) t2 in
  let o' := snd (AddToProblem self [(t1, t2)] o) in
  registration_fits_int i1 i2 ->
  (forall i, i1 <= i <= i2 + 3 -> stored (holder_ self) i) ->
  i1 <= i2 + 4 ->
  meta_n (meta o')
  = Z.of_nat (length (parameter_blocks o') - length (parameter_blocks o)) + 1.
Proof.
  intros i1 i2 o' Hfits Hstored Hle. unfold o'. rewrite AddToProblem_single by assumption.
  cbn [snd meta meta_n parameter_blocks]. fold i1 i2.
  rewrite length_app, length_map, int_range_length. lia.
Qed.

Lemma example_registration :
  AddToProblem example_trajectory [((1 / 2)%R, (3 / 2)%R)] empty_outputs
  = (Returned tt,
     Out (map (fun i => (BlockRef i, 3)) (int_range 0 (1 + 4)))
         (Meta (t0 example_view + 0 * dt example_view) (dt example_view) (1 + 4 - 0 + 1))
         (map BlockRef (int_range 0 (1 + 4)))
         (map (fun _ => 3) (int_range 0 (1 + 4)))).
Proof.
  pose proof (AddToProblem_single example_trajectory (1 / 2) (3 / 2) empty_outputs) as H.
  change (AsView example_trajectory) with example_view in H.
  rewrite example_index_half, example_index_three_halves in H.
  apply H.
  - apply registration_fits_int_small; lia.
  - intros i Hi. unfold stored. simpl. lia.
Qed.

(** C2 (the code departs from the claim). On the example trajectory the
    interval [(1/2, 3/2)] resolves to [i1 = 0], [i2 = 1]: five blocks are
    exposed (knots 0 to 4) to the block vector, the size vector and the
    problem, and the metadata says [n = 6]. *)
Theorem AddToProblem_meta_n_exceeds_exposed :
  let o' := snd (AddToProblem example_trajectory [((1 / 2)%R, (3 / 2)%R)] empty_outputs) in
  parameter_blocks o' = [BlockRef 0; BlockRef 1; BlockRef 2; BlockRef 3; BlockRef 4]
  /\ length (parameter_sizes o') = 5%nat
  /\ length (problem o') = 5%nat
  /\ meta_n (meta o') = 6.
Proof.
  cbv zeta. rewrite example_registration.
  cbn. repeat split.
Qed.

(** A view whose knot count exceeds what it stores passes the window check at
    its last admitted index and then reads a block that is not there. *)
Lemma Evaluate_reads_past_holder (env : Environment) (self : UniformR3SplineView)
    (fresh : TrajectoryEvaluation) (t : R) (flags : Z) (c0 c1 c2 : Vector3) :
  let i0 := index_of self t in
  let N := to_size_t (NumKnots self) in
  (N <? 4) || (i0 <? 0) || (to_size_t i0 >? to_size_t (N - 4)) = false ->
  wants flags (EvalPosition env) = true ->
  load (view_holder self) (BlockRef i0) = Returned c0 ->
  load (view_holder self) (BlockRef (i0 + 1)) = Returned c1 ->
  load (view_holder self) (BlockRef (i0 + 2)) = Returned c2 ->
  load (view_holder self) (BlockRef (i0 + 3)) = Undefined ->
  Evaluate env self fresh t flags = Undefined.
Proof.
  intros i0 N Hguard HP L0 L1 L2 L3.
  unfold Evaluate, CalculateIndexAndInterpolationAmount.
  cbv zeta.
  change (Zfloor ((t - t0 self) / dt self)) with i0.
  fold N. rewrite Hguard, HP. rewrite int_range_4.
  unfold for_each, Evaluate_body, accumulate, ControlPoint.
  rewrite (Parameter_of_load _ _ _ L0), (Parameter_of_load _ _ _ L1),
    (Parameter_of_load _ _ _ L2).
  rewrite HP.
  replace (i0 - i0) with 0 by lia.
  replace (i0 + 1 - i0) with 1 by lia.
  replace (i0 + 2 - i0) with 2 by lia.
  replace (i0 + 3 - i0) with 3 by lia.
  assert (Hlast : holder_Parameter (view_holder self) (i0 + 3) = Undefined
                  \/ holder_Parameter (view_holder self) (i0 + 3)
                     = Returned (BlockRef (i0 + 3))).
  { unfold holder_Parameter.
    destruct ((0 <=? i0 + 3) && (i0 + 3 <? Z.of_nat (length (view_holder self)))); auto. }
  destruct Hlast as [-> | ->];
    destruct (wants flags (EvalVelocity env));
    destruct (wants flags (EvalAcceleration env));
    cbn [bind read coeff orb]; rewrite ?L0, ?L1, ?L2, ?L3;
    cbn [bind read coeff orb]; rewrite ?L0, ?L1, ?L2, ?L3; reflexivity.
Qed.

(** The sub-window registered in the example: five blocks under [n = 6].  It
    breaks the invariant of the data model, and evaluating it at [t = 5/2]
    (index [2 = n - 4], admitted by the window check) reads block 5 of 5. *)
Lemma registered_view_example :
  let o' := snd (AddToProblem example_trajectory [((1 / 2)%R, (3 / 2)%R)] empty_outputs) in
  exists sub,
    registered_view example_trajectory o' = Returned sub /\
    length (view_holder sub) = 5%nat /\
    NumKnots sub = 6 /\
    ~ knots_stored (view_holder sub) (view_meta sub) /\
    Evaluate example_env sub example_fresh (5 / 2) 1 = Undefined.
Proof.
  cbv zeta. rewrite example_registration.
  pose (sub := View [V3 0 0 0; V3 1 0 0; V3 2 1 0; V3 3 1 1; V3 4 2 1]
                    (Meta (0 + 0 * 1) 1 6)).
  assert (Hi : index_of sub (5 / 2) = 2).
  { unfold index_of, CalculateIndexAndInterpolationAmount, t0, dt. simpl.
    apply Zfloor_eq. lra. }
  exists sub.
  split; [reflexivity|].
  split; [reflexivity|]. split; [reflexivity|]. split.
  - unfold knots_stored. cbn. lia.
  - apply (Evaluate_reads_past_holder example_env sub example_fresh (5 / 2) 1
             (V3 2 1 0) (V3 3 1 1) (V3 4 2 1)); rewrite ?Hi; reflexivity.
Qed.

(** ** Velocity and acceleration as derivatives *)

Section Derivatives.
Local Open Scope R_scope.

Lemma blend_component (p : Vector3 -> R) (w : Vector4) (c0 c1 c2 c3 : Vector3) :
  In p components ->
  p (blend w c0 c1 c2 c3) = scalar_blend w (p c0) (p c1) (p c2) (p c3).
Proof.
  unfold components, scalar_blend. simpl.
  intros [<-|[<-|[<-|[]]]]; reflexivity.
Qed.

(** Differentiation passes through [row * m] and the blend: both are linear
    in the row. *)
Lemma derivable_row_blend (row drow : R -> Vector4) (m : Matrix4) (k0 k1 k2 k3 x : R) :
  (forall q, In q weights -> derivable_pt_lim (fun y => q (row y)) x (q (drow x))) ->
  derivable_pt_lim (fun y => scalar_blend (transpose_times (row y) m) k0 k1 k2 k3) x
                   (scalar_blend (transpose_times (drow x) m) k0 k1 k2 k3).
Proof.
  intros Hq.
  pose proof (Hq v4_0 (or_introl eq_refl)) as H0.
  pose proof (Hq v4_1 (or_intror (or_introl eq_refl))) as H1.
  pose proof (Hq v4_2 (or_intror (or_intror (or_introl eq_refl)))) as H2.
  pose proof (Hq v4_3 (or_intror (or_intror (or_intror (or_introl eq_refl))))) as H3.
  set (K := fun q : Vector4 -> R =>
              q (column m v4_0) * k0 + q (column m v4_1) * k1
              + q (column m v4_2) * k2 + q (column m v4_3) * k3).
  apply (derivable_pt_lim_ext
           (fun y => v4_0 (row y) * K v4_0 + v4_1 (row y) * K v4_1
                     + v4_2 (row y) * K v4_2 + v4_3 (row y) * K v4_3)).
  { intros z. unfold scalar_blend, transpose_times, dot4, column, K. simpl. ring. }
  replace (scalar_blend (transpose_times (drow x) m) k0 k1 k2 k3)
    with (v4_0 (drow x) * K v4_0 + v4_1 (drow x) * K v4_1
          + v4_2 (drow x) * K v4_2 + v4_3 (drow x) * K v4_3)
    by (unfold scalar_blend, transpose_times, dot4, column, K; simpl; ring).
  pose proof (derivable_pt_lim_scal_right _ x _ (K v4_0) H0) as G0.
  pose proof (derivable_pt_lim_scal_right _ x _ (K v4_1) H1) as G1.
  pose proof (derivable_pt_lim_scal_right _ x _ (K v4_2) H2) as G2.
  pose proof (derivable_pt_lim_scal_right _ x _ (K v4_3) H3) as G3.
  exact (derivable_pt_lim_plus _ _ _ _ _
           (derivable_pt_lim_plus _ _ _ _ _
              (derivable_pt_lim_plus _ _ _ _ _ G0 G1) G2) G3).
Qed.

Lemma position_row_derivative (x : R) (q : Vector4 -> R) :
  In q weights ->
  derivable_pt_lim (fun y => q (position_row y)) x (q (position_row' x)).
Proof.
  unfold weights. simpl. intros [<-|[<-|[<-|[<-|[]]]]]; simpl.
  - apply (derivable_pt_lim_const 1).
  - apply derivable_pt_lim_id.
  - replace (2 * x) with (INR 2 * x ^ pred 2) by (simpl; ring).
    apply (derivable_pt_lim_pow x 2).
  - replace (3 * (x * (x * 1))) with (INR 3 * x ^ pred 3) by (simpl; ring).
    apply (derivable_pt_lim_pow x 3).
Qed.

Lemma position_row'_derivative (x : R) (q : Vector4 -> R) :
  In q weights ->
  derivable_pt_lim (fun y => q (position_row' y)) x (q (position_row'' x)).
Proof.
  unfold weights. simpl. intros [<-|[<-|[<-|[<-|[]]]]]; simpl.
  - apply (derivable_pt_lim_const 0).
  - apply (derivable_pt_lim_const 1).
  - pose proof (derivable_pt_lim_scal id 2 x 1 (derivable_pt_lim_id x)) as H.
    rewrite Rmult_1_r in H. exact H.
  - pose proof (derivable_pt_lim_scal _ 3 x _ (derivable_pt_lim_pow x 2)) as H.
    replace (3 * (INR 2 * x ^ pred 2)) with (6 * x) in H by (simpl; ring).
    exact H.
Qed.

Lemma scale4_coordinate (q : Vector4 -> R) (s : R) (v : Vector4) :
  In q weights -> q (scale4 s v) = s * q v.
Proof.
  unfold weights. simpl. intros [<-|[<-|[<-|[<-|[]]]]]; reflexivity.
Qed.

Lemma scaled_row_derivative (row drow : R -> Vector4) (s x : R) (q : Vector4 -> R) :
  In q weights ->
  derivable_pt_lim (fun y => q (row y)) x (q (drow x)) ->
  derivable_pt_lim (fun y => q (scale4 s (row y))) x (q (scale4 s (drow x))).
Proof.
  intros Hq H. rewrite (scale4_coordinate q s (drow x) Hq).
  apply (derivable_pt_lim_ext (fun y => s * q (row y))).
  - intros z. now rewrite scale4_coordinate.
  - apply (derivable_pt_lim_scal (fun y => q (row y)) s x). exact H.
Qed.

Lemma segment_local_derivative (self : UniformR3SplineView) (i0 : Z) (tau : R) :
  derivable_pt_lim (segment_local self i0) tau (1 / dt self).
Proof.
  apply (derivable_pt_lim_ext
           (fun y => y * / dt self + (- t0 self * / dt self - IZR i0))).
  { intros z. unfold segment_local. unfold Rdiv. ring. }
  replace (1 / dt self) with (1 * / dt self + 0) by (unfold Rdiv; ring).
  apply (derivable_pt_lim_plus (fun y => y * / dt self) (fun _ => _)).
  - apply (derivable_pt_lim_scal_right id tau 1), derivable_pt_lim_id.
  - apply (derivable_pt_lim_const _ tau).
Qed.

Lemma scalar_blend_scaled (s : R) (d : Vector4) (m : Matrix4) (k0 k1 k2 k3 : R) :
  scalar_blend (transpose_times (scale4 s d) m) k0 k1 k2 k3
  = scalar_blend (transpose_times d m) k0 k1 k2 k3 * s.
Proof.
  unfold scalar_blend, transpose_times, dot4, column, scale4. simpl. ring.
Qed.

(** The time derivative of a field of a segment: the blend of the row's
    derivative in the local parameter, scaled by [1/dt]. *)
Lemma segment_field_derivative (row drow : R -> Vector4) (m : Matrix4)
    (self : UniformR3SplineView) (i0 : Z) (c0 c1 c2 c3 : Vector3)
    (p : Vector3 -> R) (tau : R) :
  (forall q x, In q weights -> derivable_pt_lim (fun y => q (row y)) x (q (drow x))) ->
  In p components ->
  derivable_pt_lim
    (fun y => p (blend (transpose_times (row (segment_local self i0 y)) m) c0 c1 c2 c3))
    tau
    (p (blend (transpose_times (scale4 (1 / dt self) (drow (segment_local self i0 tau))) m)
              c0 c1 c2 c3)).
Proof.
  intros Hrow Hp.
  rewrite (blend_component p _ c0 c1 c2 c3 Hp), scalar_blend_scaled.
  apply (derivable_pt_lim_ext
           (comp (fun x => scalar_blend (transpose_times (row x) m) (p c0) (p c1) (p c2) (p c3))
                 (segment_local self i0))).
  { intros z. unfold comp. now rewrite blend_component. }
  apply derivable_pt_lim_comp.
  - apply segment_local_derivative.
  - apply derivable_row_blend. intros q Hq. now apply Hrow.
Qed.

Lemma scale4_twice (s : R) (v : Vector4) :
  scale4 s (scale4 s v) = scale4 (s ^ 2) v.
Proof. unfold scale4. simpl. f_equal; ring. Qed.

Lemma segment_velocity_is_derivative env self i0 c0 c1 c2 c3 p tau :
  In p components ->
  derivable_pt_lim (fun y => p (segment_position env self i0 c0 c1 c2 c3 y)) tau
                   (p (segment_velocity env self i0 c0 c1 c2 c3 tau)).
Proof.
  intros Hp. unfold segment_position, segment_velocity.
  apply (segment_field_derivative position_row position_row'); [|exact Hp].
  intros q x Hq. now apply position_row_derivative.
Qed.

Lemma segment_acceleration_is_derivative env self i0 c0 c1 c2 c3 p tau :
  In p components ->
  derivable_pt_lim (fun y => p (segment_velocity env self i0 c0 c1 c2 c3 y)) tau
                   (p (segment_acceleration env self i0 c0 c1 c2 c3 tau)).
Proof.
  intros Hp. unfold segment_velocity, segment_acceleration, acceleration_row.
  rewrite <- scale4_twice.
  apply (segment_field_derivative (velocity_row (dt self))
           (fun x => scale4 (1 / dt self) (position_row'' x))); [|exact Hp].
  intros q x Hq. unfold velocity_row.
  apply (scaled_row_derivative position_row' position_row''); [exact Hq|].
  now apply position_row'_derivative.
Qed.

Lemma weight_derivative (row drow : R -> Vector4) (m : Matrix4) (q : Vector4 -> R) (x : R) :
  (forall q', In q' weights -> derivable_pt_lim (fun y => q' (row y)) x (q' (drow x))) ->
  In q weights ->
  derivable_pt_lim (fun y => q (transpose_times (row y) m)) x
                   (q (transpose_times (drow x) m)).
Proof.
  intros Hrow Hq.
  assert (Hsame : exists k0 k1 k2 k3, forall w, q w = scalar_blend w k0 k1 k2 k3).
  { unfold weights in Hq. simpl in Hq.
    destruct Hq as [<-|[<-|[<-|[<-|[]]]]];
      [exists 1, 0, 0, 0|exists 0, 1, 0, 0|exists 0, 0, 1, 0|exists 0, 0, 0, 1];
      intros w; unfold scalar_blend; ring. }
  destruct Hsame as (k0 & k1 & k2 & k3 & Hk).
  rewrite Hk.
  apply (derivable_pt_lim_ext
           (fun y => scalar_blend (transpose_times (row y) m) k0 k1 k2 k3)).
  { intros z. now rewrite Hk. }
  now apply derivable_row_blend.
Qed.

Lemma scaled_weight (q : Vector4 -> R) (s : R) (v : Vector4) (m : Matrix4) :
  In q weights ->
  q (transpose_times (scale4 s v) m) = s * q (transpose_times v m).
Proof.
  unfold weights. simpl. intros [<-|[<-|[<-|[<-|[]]]]];
    unfold transpose_times, dot4, column, scale4; simpl; ring.
Qed.

Lemma local_of_range (self : UniformR3SplineView) (t : R) :
  0 <= local_of self t < 1.
Proof.
  rewrite local_of_eq. unfold index_of, CalculateIndexAndInterpolationAmount. cbn [fst].
  pose proof (Zfloor_bound ((t - t0 self) / dt self)). lra.
Qed.

Lemma Evaluate_on_segment (env : Environment) (self : UniformR3SplineView)
    (fresh : TrajectoryEvaluation) (flags : Z) (i0 : Z) (c0 c1 c2 c3 : Vector3) (tau : R) :
  (let N := to_size_t (NumKnots self) in
   (N <? 4) || (i0 <? 0) || (to_size_t i0 >? to_size_t (N - 4)))%Z = false ->
  load (view_holder self) (BlockRef i0) = Returned c0 ->
  load (view_holder self) (BlockRef (i0 + 1)) = Returned c1 ->
  load (view_holder self) (BlockRef (i0 + 2)) = Returned c2 ->
  load (view_holder self) (BlockRef (i0 + 3)) = Returned c3 ->
  index_of self tau = i0 ->
  wants flags (EvalPosition env) = true ->
  wants flags (EvalVelocity env) = true ->
  wants flags (EvalAcceleration env) = true ->
  exists r,
    Evaluate env self fresh tau flags = Returned r /\
    position r = segment_position env self i0 c0 c1 c2 c3 tau /\
    velocity r = segment_velocity env self i0 c0 c1 c2 c3 tau /\
    acceleration r = segment_acceleration env self i0 c0 c1 c2 c3 tau.
Proof.
  intros Hguard L0 L1 L2 L3 Hidx HP HV HA. subst i0.
  eexists. split.
  { apply (Evaluate_in_window env self fresh tau flags c0 c1 c2 c3); assumption. }
  unfold evaluated, segment_position, segment_velocity, segment_acceleration.
  cbn [position velocity acceleration]. rewrite HP, HV, HA.
  repeat split.
Qed.

(** For a positive spacing, the times strictly between two knots resolve to
    the index of the left knot. *)
Lemma index_of_between_knots (self : UniformR3SplineView) (i0 : Z) (z : R) :
  0 < dt self ->
  t0 self + IZR i0 * dt self < z < t0 self + (IZR i0 + 1) * dt self ->
  index_of self z = i0.
Proof.
  intros Hdt Hz. unfold index_of, CalculateIndexAndInterpolationAmount. cbn [fst].
  apply Zfloor_eq.
  set (s := (z - t0 self) / dt self).
  assert (Hs : z - t0 self = s * dt self) by (unfold s; field; lra).
  split; nra.
Qed.

Lemma interior_between_knots (self : UniformR3SplineView) (t : R) :
  0 < dt self -> 0 < local_of self t ->
  t0 self + IZR (index_of self t) * dt self < t
  < t0 self + (IZR (index_of self t) + 1) * dt self.
Proof.
  intros Hdt Hu. pose proof (local_of_range self t) as [_ H1].
  rewrite local_of_eq in Hu, H1.
  set (s := (t - t0 self) / dt self) in *.
  assert (Hs : t - t0 self = s * dt self) by (unfold s; field; lra).
  split; nra.
Qed.
End Derivatives.

(** C5. For any basis matrix and any control points, at every valid query
    with position, velocity and acceleration requested (local parameter [u],
    always in [[0, 1)]):
    - each velocity weight is [1/dt] times the derivative in [u] of the
      position weight, and each acceleration weight is [(1/dt)^2] times its
      second derivative;
    - throughout the segment of the query [Evaluate] returns the segment's
      position, velocity and acceleration functions of time, and at the query
      time the velocity function is the derivative of the position function
      and the acceleration function the derivative of the velocity function;
    - for a positive spacing and a query strictly between two knots, the
      velocity returned is the derivative, at the query time, of the position
      [Evaluate] returns as a function of time, and the acceleration returned
      is the derivative of the velocity it returns. *)
Theorem Evaluate_velocity_is_derivative (env : Environment) (self : UniformR3SplineView)
    (fresh : TrajectoryEvaluation) (t : R) (flags : Z) :
  is_size_t (NumKnots self) -> is_int (index_of self t) ->
  knots_stored (view_holder self) (view_meta self) ->
  4 <= NumKnots self -> 0 <= index_of self t <= NumKnots self - 4 ->
  wants flags (EvalPosition env) = true ->
  wants flags (EvalVelocity env) = true ->
  wants flags (EvalAcceleration env) = true ->
  let i0 := index_of self t in
  let u := local_of self t in
  (0 <= u < 1)%R
  /\ (forall q, In q weights ->
       derivable_pt_lim (fun x => q (transpose_times (position_row x) (M env))) u
                        (q (transpose_times (position_row' u) (M env)))
       /\ q (transpose_times (velocity_row (dt self) u) (M env))
          = (1 / dt self * q (transpose_times (position_row' u) (M env)))%R
       /\ derivable_pt_lim (fun x => q (transpose_times (position_row' x) (M env))) u
                           (q (transpose_times (position_row'' u) (M env)))
       /\ q (transpose_times (acceleration_row (dt self) u) (M env))
          = ((1 / dt self) ^ 2 * q (transpose_times (position_row'' u) (M env)))%R)
  /\ (exists c0 c1 c2 c3,
        (forall tau, index_of self tau = i0 ->
           exists r,
             Evaluate env self fresh tau flags = Returned r /\
             position r = segment_position env self i0 c0 c1 c2 c3 tau /\
             velocity r = segment_velocity env self i0 c0 c1 c2 c3 tau /\
             acceleration r = segment_acceleration env self i0 c0 c1 c2 c3 tau)
        /\ (forall p, In p components ->
              derivable_pt_lim (fun x => p (segment_position env self i0 c0 c1 c2 c3 x)) t
                               (p (segment_velocity env self i0 c0 c1 c2 c3 t))
              /\ derivable_pt_lim (fun x => p (segment_velocity env self i0 c0 c1 c2 c3 x)) t
                                  (p (segment_acceleration env self i0 c0 c1 c2 c3 t))))
  /\ ((0 < dt self)%R -> (0 < u)%R ->
      forall p, In p components ->
        derivable_pt_lim (fun x => p (field_at position env self fresh flags x)) t
                         (p (field_at velocity env self fresh flags t))
        /\ derivable_pt_lim (fun x => p (field_at velocity env self fresh flags x)) t
                            (p (field_at acceleration env self fresh flags t))).
Proof.
  intros Hn Hi Hst H4 Hw HP HV HA i0 u.
  destruct (window_stored (view_holder self) (NumKnots self) i0)
    as (c0 & c1 & c2 & c3 & L0 & L1 & L2 & L3);
    [unfold knots_stored, NumKnots in *; lia|assumption|].
  assert (Hguard : (let N := to_size_t (NumKnots self) in
                    (N <? 4) || (i0 <? 0) || (to_size_t i0 >? to_size_t (N - 4))) = false).
  { cbv zeta. apply not_true_is_false. rewrite window_check_spec by assumption.
    unfold outside_window. fold i0 in Hw. lia. }
  assert (Hseg : forall tau, index_of self tau = i0 ->
            exists r,
              Evaluate env self fresh tau flags = Returned r /\
              position r = segment_position env self i0 c0 c1 c2 c3 tau /\
              velocity r = segment_velocity env self i0 c0 c1 c2 c3 tau /\
              acceleration r = segment_acceleration env self i0 c0 c1 c2 c3 tau).
  { intros tau Htau. now apply Evaluate_on_segment. }
  split; [apply local_of_range|]. split; [|split].
  - intros q Hq. split; [|split; [|split]].
    + apply (weight_derivative position_row position_row'); [|exact Hq].
      intros q' Hq'. now apply position_row_derivative.
    + unfold velocity_row. now apply scaled_weight.
    + apply (weight_derivative position_row' position_row''); [|exact Hq].
      intros q' Hq'. now apply position_row'_derivative.
    + unfold acceleration_row. now apply scaled_weight.
  - exists c0, c1, c2, c3. split; [exact Hseg|].
    intros p Hp. split.
    + now apply segment_velocity_is_derivative.
    + now apply segment_acceleration_is_derivative.
  - intros Hdt Hu p Hp.
    pose proof (interior_between_knots self t Hdt Hu) as Hbetween. fold i0 in Hbetween.
    assert (Hfield : forall z,
              (t0 self + IZR i0 * dt self < z < t0 self + (IZR i0 + 1) * dt self)%R ->
              field_at position env self fresh flags z
              = segment_position env self i0 c0 c1 c2 c3 z /\
              field_at velocity env self fresh flags z
              = segment_velocity env self i0 c0 c1 c2 c3 z /\
              field_at acceleration env self fresh flags z
              = segment_acceleration env self i0 c0 c1 c2 c3 z).
    { intros z Hz.
      destruct (Hseg z (index_of_between_knots self i0 z Hdt Hz)) as (r & E & Ep & Ev & Ea).
      unfold field_at. rewrite E. auto. }
    destruct (Hfield t Hbetween) as (_ & Ev & Ea). rewrite Ev, Ea.
    split.
    + apply (derivable_pt_lim_locally_ext
               (fun x => p (segment_position env self i0 c0 c1 c2 c3 x)) _ t
               (t0 self + IZR i0 * dt self) (t0 self + (IZR i0 + 1) * dt self));
        [exact Hbetween| |now apply segment_velocity_is_derivative].
      intros z Hz. destruct (Hfield z Hz) as (-> & _). reflexivity.
    + apply (derivable_pt_lim_locally_ext
               (fun x => p (segment_velocity env self i0 c0 c1 c2 c3 x)) _ t
               (t0 self + IZR i0 * dt self) (t0 self + (IZR i0 + 1) * dt self));
        [exact Hbetween| |now apply segment_acceleration_is_derivative].
      intros z Hz. destruct (Hfield z Hz) as (_ & -> & _). reflexivity.
Qed.

Lemma Evaluate_velocity_is_derivative_witness :
  derivable_pt_lim
    (fun x => v3y (field_at position example_env example_view example_fresh 7 x))
    (5 / 2)
    (v3y (field_at velocity example_env example_view example_fresh 7 (5 / 2)))
  /\ derivable_pt_lim
       (fun x => v3y (field_at velocity example_env example_view example_fresh 7 x))
       (5 / 2)
       (v3y (field_at acceleration example_env example_view example_fresh 7 (5 / 2))).
Proof.
  destruct (Evaluate_velocity_is_derivative example_env example_view example_fresh
              (5 / 2) 7) as (_ & _ & _ & H).
  - exact is_size_t_6.
  - rewrite example_index_inside. apply is_int_small. lia.
  - exact example_knots_stored.
  - unfold NumKnots. simpl. lia.
  - rewrite example_index_inside. unfold NumKnots. simpl. lia.
  - reflexivity.
  - reflexivity.
  - reflexivity.
  - apply H.
    + unfold dt. simpl. lra.
    + rewrite example_local_inside. lra.
    + unfold components. simpl. auto.
Defined.

(** ** The invariant of the data model *)

(** Every trajectory built by appending knots to an empty one stores as many
    control points as its knot count says. *)
Lemma built_knots_stored (self : UniformR3SplineTrajectory) :
  built self -> knots_stored (holder_ self) (meta_ self).
Proof.
  induction 1 as [t0_ dt_|self self' cp Hb IH Happend].
  - reflexivity.
  - rewrite AppendKnot_eq in Happend. injection Happend as <-.
    unfold knots_stored in *. cbn [holder_ meta_ meta_n].
    rewrite length_app. simpl. lia.
Qed.

(** ** Writing and reading control points *)

Lemma set_nth_Some (h : DataHolder) (k : nat) (v : Vector3) :
  (k < length h)%nat ->
  exists h',
    set_nth h k v = Some h' /\
    length h' = length h /\
    nth_error h' k = Some v /\
    forall j, j <> k -> nth_error h' j = nth_error h j.
Proof.
  revert k. induction h as [|b rest IH]; intros k Hk; simpl in Hk; [lia|].
  destruct k as [|k]; simpl.
  - exists (v :: rest). repeat split. intros [|j] Hj; [congruence|reflexivity].
  - destruct (IH k) as (rest' & -> & Hlen & Hk' & Hother); [lia|].
    exists (b :: rest'). simpl. repeat split; [now rewrite Hlen|exact Hk'|].
    intros [|j] Hj; [reflexivity|]. simpl. apply Hother. congruence.
Qed.

Lemma set_nth_None (h : DataHolder) (k : nat) (v : Vector3) :
  (length h <= k)%nat -> set_nth h k v = None.
Proof.
  revert k. induction h as [|b rest IH]; intros k Hk; [reflexivity|].
  destruct k as [|k]; simpl in *; [lia|]. rewrite IH by lia. reflexivity.
Qed.

Lemma store_in_range (h : DataHolder) (i : Z) (v : Vector3) :
  0 <= i < Z.of_nat (length h) ->
  exists h',
    store h (BlockRef i) v = Returned h' /\
    length h' = length h /\
    load h' (BlockRef i) = Returned v /\
    forall j, j <> i -> load h' (BlockRef j) = load h (BlockRef j).
Proof.
  intros Hi. destruct (set_nth_Some h (Z.to_nat i) v) as (h' & E & Hlen & Hk & Hother); [lia|].
  exists h'. unfold store, load. cbn [block_index].
  destruct (Z.ltb_spec i 0); [lia|]. rewrite E, Hk.
  repeat split; [exact Hlen|].
  intros j Hj. destruct (Z.ltb_spec j 0); [reflexivity|].
  rewrite Hother by lia. reflexivity.
Qed.

Lemma store_out_of_range (h : DataHolder) (i : Z) (v : Vector3) :
  i < 0 \/ Z.of_nat (length h) <= i -> store h (BlockRef i) v = Undefined.
Proof.
  intros Hi. unfold store. cbn [block_index].
  destruct (Z.ltb_spec i 0); [reflexivity|].
  rewrite set_nth_None by lia. reflexivity.
Qed.

(** X4. Writing [v] through the trajectory's [ControlPoint(i)], for [i] among
    the stored points, is read back by [ControlPoint(i)]; every other control
    point reads as before and the metadata and the number of stored points
    are unchanged.  For any other [i] the write has no defined behaviour: no
    bounds are checked. *)
Theorem ControlPoint_write_read (self : UniformR3SplineTrajectory) (i : Z) (v : Vector3) :
  (0 <= i < Z.of_nat (length (holder_ self)) ->
   exists self',
     Trajectory_assign_ControlPoint self i v = Returned self' /\
     Trajectory_ControlPoint self' i = Returned v /\
     (forall j, j <> i -> Trajectory_ControlPoint self' j = Trajectory_ControlPoint self j) /\
     meta_ self' = meta_ self /\
     length (holder_ self') = length (holder_ self))
  /\ (i < 0 \/ Z.of_nat (length (holder_ self)) <= i ->
      Trajectory_assign_ControlPoint self i v = Undefined).
Proof.
  unfold Trajectory_assign_ControlPoint, MutableControlPoint. cbn [AsView view_holder].
  split.
  - intros Hi.
    destruct (store_in_range (holder_ self) i v Hi) as (h' & E & Hlen & Hsame & Hother).
    rewrite holder_Parameter_stored by exact Hi. cbn [bind].
    rewrite E. cbn [bind]. eexists. split; [reflexivity|].
    split; [rewrite Trajectory_ControlPoint_load; exact Hsame|].
    split; [|split; [reflexivity|exact Hlen]].
    intros j Hj. rewrite !Trajectory_ControlPoint_load. now apply Hother.
  - intros Hi. now rewrite holder_Parameter_not_stored.
Qed.

Lemma ControlPoint_write_read_witness :
  exists self',
    Trajectory_assign_ControlPoint example_trajectory 2 (V3 9 9 9) = Returned self' /\
    Trajectory_ControlPoint self' 2 = Returned (V3 9 9 9) /\
    Trajectory_ControlPoint self' 3 = Returned (V3 3 1 1).
Proof.
  destruct (ControlPoint_write_read example_trajectory 2 (V3 9 9 9)) as [Hin _].
  destruct Hin as (self' & E & Hsame & Hother & _); [simpl; lia|].
  exists self'. split; [exact E|]. split; [exact Hsame|].
  rewrite (Hother 3) by lia. reflexivity.
Defined.

(** ** What an evaluation depends on *)

(** [Evaluate] reads the holder through the four blocks of its window only. *)
Lemma Evaluate_depends_on_window (env : Environment) (self self' : UniformR3SplineView)
    (fresh : TrajectoryEvaluation) (t : R) (flags : Z) :
  view_meta self' = view_meta self ->
  length (view_holder self') = length (view_holder self) ->
  (forall k, 0 <= k <= 3 ->
     load (view_holder self') (BlockRef (index_of self t + k))
     = load (view_holder self) (BlockRef (index_of self t + k))) ->
  Evaluate env self' fresh t flags = Evaluate env self fresh t flags.
Proof.
  destruct self as [h m], self' as [h' m']. cbn [view_meta view_holder].
  intros -> Hlen Hloads.
  pose proof (Hloads 0 ltac:(lia)) as L0. rewrite Z.add_0_r in L0.
  pose proof (Hloads 1 ltac:(lia)) as L1.
  pose proof (Hloads 2 ltac:(lia)) as L2.
  pose proof (Hloads 3 ltac:(lia)) as L3.
  unfold Evaluate, CalculateIndexAndInterpolationAmount. cbv zeta.
  change (t0 (View h' m)) with (t0 (View h m)).
  change (dt (View h' m)) with (dt (View h m)).
  change (NumKnots (View h' m)) with (NumKnots (View h m)).
  change (Zfloor ((t - t0 (View h m)) / dt (View h m))) with (index_of (View h m) t) in *.
  destruct ((to_size_t (NumKnots (View h m)) <? 4) || (index_of (View h m) t <? 0)
            || (to_size_t (index_of (View h m) t)
                >? to_size_t (to_size_t (NumKnots (View h m)) - 4))); [reflexivity|].
  rewrite int_range_4.
  unfold for_each, Evaluate_body, accumulate, ControlPoint, holder_Parameter.
  cbn [view_holder]. rewrite Hlen.
  set (i0 := index_of (View h m) t) in *.
  destruct ((0 <=? i0) && (i0 <? Z.of_nat (length h)));
    destruct ((0 <=? i0 + 1) && (i0 + 1 <? Z.of_nat (length h)));
    destruct ((0 <=? i0 + 2) && (i0 + 2 <? Z.of_nat (length h)));
    destruct ((0 <=? i0 + 3) && (i0 + 3 <? Z.of_nat (length h)));
    cbn [bind]; rewrite ?L0, ?L1, ?L2, ?L3; reflexivity.
Qed.

Lemma assign_ControlPoint_returns (self self' : UniformR3SplineView) (j : Z) (v : Vector3) :
  assign_ControlPoint self j v = Returned self' ->
  view_meta self' = view_meta self /\
  length (view_holder self') = length (view_holder self) /\
  load (view_holder self') (BlockRef j) = Returned v /\
  forall i, i <> j ->
    load (view_holder self') (BlockRef i) = load (view_holder self) (BlockRef i).
Proof.
  unfold assign_ControlPoint, MutableControlPoint. intros H.
  destruct (Z_lt_le_dec j 0) as [Hneg|Hpos];
    [rewrite holder_Parameter_not_stored in H by lia; discriminate|].
  destruct (Z_lt_le_dec j (Z.of_nat (length (view_holder self)))) as [Hin|Hout];
    [|rewrite holder_Parameter_not_stored in H by lia; discriminate].
  rewrite holder_Parameter_stored in H by lia. cbn [bind] in H.
  destruct (store_in_range (view_holder self) j v) as (h' & E & Hlen & Hsame & Hother);
    [lia|].
  rewrite E in H. cbn [bind] in H. injection H as <-. cbn [view_meta view_holder]. auto.
Qed.

(** X5. Local support: once a control point outside the four-point window of
    a query time has been overwritten (through [MutableControlPoint]), the
    evaluation at that time is what it was before, whatever the flags and
    whether it returned, threw or was undefined. *)
Theorem Evaluate_ignores_points_outside_window (env : Environment)
    (self self' : UniformR3SplineView) (fresh : TrajectoryEvaluation)
    (t : R) (flags : Z) (j : Z) (v : Vector3) :
  assign_ControlPoint self j v = Returned self' ->
  j < index_of self t \/ index_of self t + 3 < j ->
  Evaluate env self' fresh t flags = Evaluate env self fresh t flags.
Proof.
  intros Hassign Hout.
  destruct (assign_ControlPoint_returns self self' j v Hassign)
    as (Hmeta & Hlen & _ & Hother).
  apply Evaluate_depends_on_window; [exact Hmeta|exact Hlen|].
  intros k Hk. apply Hother. lia.
Qed.

Lemma Evaluate_ignores_points_outside_window_witness :
  exists self',
    assign_ControlPoint example_view 0 (V3 9 9 9) = Returned self' /\
    Evaluate example_env self' example_fresh (5 / 2) 7
    = Evaluate example_env example_view example_fresh (5 / 2) 7.
Proof.
  eexists. split; [reflexivity|].
  apply (Evaluate_ignores_points_outside_window example_env example_view _
           example_fresh (5 / 2) 7 0 (V3 9 9 9)).
  - reflexivity.
  - rewrite example_index_inside. lia.
Defined.

Lemma blend_update (w : Vector4) (c0 c1 c2 c3 v : Vector3) :
  blend w v c1 c2 c3 = add3 (blend w c0 c1 c2 c3) (scale3 (weight_at w 0) (sub3 v c0))
  /\ blend w c0 v c2 c3 = add3 (blend w c0 c1 c2 c3) (scale3 (weight_at w 1) (sub3 v c1))
  /\ blend w c0 c1 v c3 = add3 (blend w c0 c1 c2 c3) (scale3 (weight_at w 2) (sub3 v c2))
  /\ blend w c0 c1 c2 v = add3 (blend w c0 c1 c2 c3) (scale3 (weight_at w 3) (sub3 v c3)).
Proof.
  unfold blend, add3, scale3, sub3, setZero, weight_at. cbn [v3x v3y v3z].
  repeat split; f_equal; ring.
Qed.

(** X6. Live storage and sensitivity: overwriting the [k]-th control point of
    the window of a valid query ([k] in [0 .. 3]) with [v] moves each
    requested field by that point's weight times [v - old]: the weight of
    the position row for the position, of the velocity row for the velocity,
    of the acceleration row for the acceleration.  The next evaluation sees
    the new value without any other step. *)
Theorem Evaluate_sensitivity (env : Environment) (self : UniformR3SplineView)
    (fresh : TrajectoryEvaluation) (t : R) (flags : Z) (k : Z) (v : Vector3) :
  is_size_t (NumKnots self) -> is_int (index_of self t) ->
  knots_stored (view_holder self) (view_meta self) ->
  4 <= NumKnots self -> 0 <= index_of self t <= NumKnots self - 4 ->
  0 <= k <= 3 ->
  let i0 := index_of self t in
  let u := local_of self t in
  exists old self' r r',
    (cp <- ControlPoint self (i0 + k) ;; load (view_holder self) cp) = Returned old /\
    assign_ControlPoint self (i0 + k) v = Returned self' /\
    Evaluate env self fresh t flags = Returned r /\
    Evaluate env self' fresh t flags = Returned r' /\
    (wants flags (EvalPosition env) = true ->
     position r'
     = add3 (position r)
            (scale3 (weight_at (transpose_times (position_row u) (M env)) k) (sub3 v old))) /\
    (wants flags (EvalVelocity env) = true ->
     velocity r'
     = add3 (velocity r)
            (scale3 (weight_at (transpose_times (velocity_row (dt self) u) (M env)) k)
                    (sub3 v old))) /\
    (wants flags (EvalAcceleration env) = true ->
     acceleration r'
     = add3 (acceleration r)
            (scale3 (weight_at (transpose_times (acceleration_row (dt self) u) (M env)) k)
                    (sub3 v old))).
Proof.
  intros Hn Hi Hst H4 Hw Hk i0 u.
  destruct (Evaluate_returns env self fresh t flags Hn Hi Hst H4 Hw)
    as (c0 & c1 & c2 & c3 & L0 & L1 & L2 & L3 & E).
  fold i0 in L0, L1, L2, L3. fold u in E.
  destruct (store_in_range (view_holder self) (i0 + k) v) as (h' & Es & _ & Hsame & Hother).
  { unfold knots_stored, NumKnots in *. fold i0 in Hw. lia. }
  set (self' := View h' (view_meta self)).
  assert (Hassign : assign_ControlPoint self (i0 + k) v = Returned self').
  { unfold assign_ControlPoint, MutableControlPoint.
    rewrite holder_Parameter_stored
      by (unfold stored, knots_stored, NumKnots in *; fold i0 in Hw; lia).
    cbn [bind]. now rewrite Es. }
  assert (Hguard : (let N := to_size_t (NumKnots self') in
                    (N <? 4) || (index_of self' t <? 0)
                    || (to_size_t (index_of self' t) >? to_size_t (N - 4))) = false).
  { cbv zeta. change (NumKnots self') with (NumKnots self).
    change (index_of self' t) with (index_of self t).
    apply not_true_is_false. rewrite window_check_spec by assumption.
    unfold outside_window. lia. }
  assert (Hcase : k = 0 \/ k = 1 \/ k = 2 \/ k = 3) by lia.
  unfold ControlPoint. rewrite load_through_Parameter.
  destruct Hcase as [ -> | [ -> | [ -> | -> ]]].
  - rewrite Z.add_0_r in *.
    exists c0, self', (evaluated env (dt self) u flags fresh c0 c1 c2 c3),
      (evaluated env (dt self) u flags fresh v c1 c2 c3).
    repeat (split; [assumption|]). split.
    { apply (Evaluate_in_window env self' fresh t flags v c1 c2 c3); try exact Hguard;
        change (index_of self' t) with i0; cbn [view_holder self'];
        [exact Hsame|rewrite Hother by lia; assumption..]. }
    unfold evaluated; cbn [position velocity acceleration].
    repeat split; intros ->; apply blend_update.
  - exists c1, self', (evaluated env (dt self) u flags fresh c0 c1 c2 c3),
      (evaluated env (dt self) u flags fresh c0 v c2 c3).
    repeat (split; [assumption|]). split.
    { apply (Evaluate_in_window env self' fresh t flags c0 v c2 c3); try exact Hguard;
        change (index_of self' t) with i0; cbn [view_holder self'];
        [rewrite Hother by lia; assumption|exact Hsame
        |rewrite Hother by lia; assumption..]. }
    unfold evaluated; cbn [position velocity acceleration].
    repeat split; intros ->; apply blend_update.
  - exists c2, self', (evaluated env (dt self) u flags fresh c0 c1 c2 c3),
      (evaluated env (dt self) u flags fresh c0 c1 v c3).
    repeat (split; [assumption|]). split.
    { apply (Evaluate_in_window env self' fresh t flags c0 c1 v c3); try exact Hguard;
        change (index_of self' t) with i0; cbn [view_holder self'];
        [rewrite Hother by lia; assumption|rewrite Hother by lia; assumption
        |exact Hsame|rewrite Hother by lia; assumption]. }
    unfold evaluated; cbn [position velocity acceleration].
    repeat split; intros ->; apply blend_update.
  - exists c3, self', (evaluated env (dt self) u flags fresh c0 c1 c2 c3),
      (evaluated env (dt self) u flags fresh c0 c1 c2 v).
    repeat (split; [assumption|]). split.
    { apply (Evaluate_in_window env self' fresh t flags c0 c1 c2 v); try exact Hguard;
        change (index_of self' t) with i0; cbn [view_holder self'];
        [rewrite Hother by lia; assumption..|exact Hsame]. }
    unfold evaluated; cbn [position velocity acceleration].
    repeat split; intros ->; apply blend_update.
Qed.

Lemma Evaluate_sensitivity_witness :
  exists self' r r',
    assign_ControlPoint example_view 3 (V3 3 7 1) = Returned self' /\
    Evaluate example_env example_view example_fresh (5 / 2) 1 = Returned r /\
    Evaluate example_env self' example_fresh (5 / 2) 1 = Returned r' /\
    position r'
    = add3 (position r)
           (scale3 (weight_at (transpose_times (position_row (1 / 2)) cubic_basis) 1)
                   (sub3 (V3 3 7 1) (V3 3 1 1))).
Proof.
  destruct (Evaluate_sensitivity example_env example_view example_fresh (5 / 2) 1 1 (V3 3 7 1))
    as (old & self' & r & r' & Hold & Hassign & E & E' & Hp & _).
  - exact is_size_t_6.
  - rewrite example_index_inside. apply is_int_small. lia.
  - exact example_knots_stored.
  - unfold NumKnots. simpl. lia.
  - rewrite example_index_inside. unfold NumKnots. simpl. lia.
  - lia.
  - rewrite example_index_inside in Hold, Hassign. cbn in Hold. injection Hold as <-.
    rewrite example_local_inside in Hp.
    exists self', r, r'. repeat (split; [assumption|]).
    apply Hp. reflexivity.
Defined.

(** ** Orientation and angular velocity *)

Lemma for_each_invariant {S : Type} (P : S -> Prop) (body : Z -> S -> outcome S)
    (indices : list Z) (s s' : S) :
  (forall i a b, P a -> body i a = Returned b -> P b) ->
  P s -> for_each indices body s = Returned s' -> P s'.
Proof.
  intros Hbody. revert s. induction indices as [|i rest IH]; intros s Hs H; simpl in H.
  - now injection H as <-.
  - destruct (body i s) as [a| |] eqn:E; cbn [bind] in H; try discriminate.
    apply (IH a); [|exact H]. now apply (Hbody i s).
Qed.

Ltac bind_inversion H :=
  match type of H with
  | bind ?m _ = Returned _ =>
      let E := fresh "E" in
      destruct m eqn:E; cbn [bind] in H; try discriminate
  end.

Lemma Evaluate_body_keeps_rotation env self flags i0 Bp Bv Ba i result result' :
  Evaluate_body env self flags i0 Bp Bv Ba i result = Returned result' ->
  orientation result' = orientation result /\
  angular_velocity result' = angular_velocity result.
Proof.
  unfold Evaluate_body. intros H.
  destruct (wants flags (EvalPosition env));
    destruct (wants flags (EvalVelocity env));
    destruct (wants flags (EvalAcceleration env));
    cbn [bind] in H;
    repeat match goal with
           | G : bind ?m _ = Returned _ |- _ =>
               destruct m eqn:?; cbn [bind] in G; try discriminate
           end;
    repeat match goal with
           | G : Returned _ = Returned _ |- _ => injection G as <-
           end;
    split; reflexivity.
Qed.

(** X7. Whenever [Evaluate] returns, the orientation of the result is the
    identity if [EvalOrientation] was requested and that of the freshly
    constructed result otherwise, and the angular velocity is zero if
    [EvalAngularVelocity] was requested and the fresh one otherwise: neither
    depends on the control points, the basis matrix or the query time. *)
Theorem Evaluate_rotation_fields (env : Environment) (self : UniformR3SplineView)
    (fresh : TrajectoryEvaluation) (t : R) (flags : Z) (r : TrajectoryEvaluation) :
  Evaluate env self fresh t flags = Returned r ->
  orientation r
  = (if wants flags (EvalOrientation env) then setIdentity else orientation fresh)
  /\ angular_velocity r
     = (if wants flags (EvalAngularVelocity env) then setZero else angular_velocity fresh).
Proof.
  unfold Evaluate, CalculateIndexAndInterpolationAmount. cbv zeta. intros H.
  match type of H with (if ?g then _ else _) = _ => destruct g end; [discriminate|].
  set (inv := fun s : TrajectoryEvaluation =>
                orientation s = orientation fresh /\
                angular_velocity s = angular_velocity fresh).
  assert (Hloop : forall Bp Bv Ba l s s',
             inv s ->
             for_each l (Evaluate_body env self flags
                           (Zfloor ((t - t0 self) / dt self)) Bp Bv Ba) s = Returned s' ->
             inv s').
  { intros Bp Bv Ba l s s' Hs Hl.
    apply (for_each_invariant inv
             (Evaluate_body env self flags (Zfloor ((t - t0 self) / dt self)) Bp Bv Ba)
             l s s'); [|exact Hs|exact Hl].
    intros i a b [Ha1 Ha2] Hb. apply Evaluate_body_keeps_rotation in Hb.
    destruct Hb as [Hb1 Hb2]. split; congruence. }
  destruct (wants flags (EvalPosition env));
    destruct (wants flags (EvalVelocity env));
    destruct (wants flags (EvalAcceleration env));
    cbn [bind read orb] in H;
    bind_inversion H;
    (apply Hloop in E; [|split; reflexivity]);
    destruct E as [E1 E2];
    injection H as <-;
    destruct (wants flags (EvalOrientation env));
    destruct (wants flags (EvalAngularVelocity env));
    cbn [orientation angular_velocity set_orientation set_angular_velocity];
    split; first [reflexivity | assumption].
Qed.

Lemma Evaluate_rotation_fields_witness :
  exists r,
    Evaluate example_env example_view example_fresh (5 / 2) 9 = Returned r /\
    orientation r = Quat 1 0 0 0 /\
    angular_velocity r = V3 5 5 5.
Proof.
  destruct (Evaluate_returns example_env example_view example_fresh (5 / 2) 9)
    as (c0 & c1 & c2 & c3 & _ & _ & _ & _ & E).
  - exact is_size_t_6.
  - rewrite example_index_inside. apply is_int_small. lia.
  - exact example_knots_stored.
  - unfold NumKnots. simpl. lia.
  - rewrite example_index_inside. unfold NumKnots. simpl. lia.
  - eexists. split; [exact E|].
    exact (Evaluate_rotation_fields example_env example_view example_fresh (5 / 2) 9 _ E).
Defined.

(** ** Growing a trajectory *)

Lemma AppendKnots_eq (self : UniformR3SplineTrajectory) (points : list Vector3) :
  AppendKnots self points
  = Returned (Trajectory (holder_ self ++ points)
                         (Meta (meta_t0 (meta_ self)) (meta_dt (meta_ self))
                               (meta_n (meta_ self) + Z.of_nat (length points)))).
Proof.
  revert self. induction points as [|p rest IH]; intros self.
  - destruct self as [h [a b n]]. cbn [AppendKnots holder_ meta_ meta_t0 meta_dt meta_n length].
    now rewrite app_nil_r, Z.add_0_r.
  - cbn [AppendKnots]. rewrite AppendKnot_eq. cbn [bind]. rewrite IH.
    cbn [holder_ meta_ meta_t0 meta_dt meta_n length].
    rewrite <- app_assoc. cbn [app].
    do 3 f_equal. lia.
Qed.

(** X9. Appending the points of a list one after the other to a trajectory
    that stores its knots returns a trajectory that stores the old control
    points followed by the new ones in the order given: the knot count grows
    by the length of the list, the [k]-th appended point is read back at
    index [n + k], the old points read as before, [t0] and [dt] are
    unchanged, and the result again stores its knots. *)
Theorem AppendKnots_appends_in_order (self : UniformR3SplineTrajectory)
    (points : list Vector3) :
  knots_stored (holder_ self) (meta_ self) ->
  exists self',
    AppendKnots self points = Returned self' /\
    holder_ self' = holder_ self ++ points /\
    meta_n (meta_ self') = meta_n (meta_ self) + Z.of_nat (length points) /\
    (forall k p, nth_error points k = Some p ->
       Trajectory_ControlPoint self' (meta_n (meta_ self) + Z.of_nat k) = Returned p) /\
    (forall i, 0 <= i < meta_n (meta_ self) ->
       Trajectory_ControlPoint self' i = Trajectory_ControlPoint self i) /\
    meta_t0 (meta_ self') = meta_t0 (meta_ self) /\
    meta_dt (meta_ self') = meta_dt (meta_ self) /\
    knots_stored (holder_ self') (meta_ self').
Proof.
  unfold knots_stored. intros Hst.
  eexists. split; [apply AppendKnots_eq|].
  cbn [holder_ meta_ meta_n meta_t0 meta_dt AsView].
  split; [reflexivity|]. split; [reflexivity|]. split; [|split; [|split; [|split]]].
  - intros k p Hk. rewrite Trajectory_ControlPoint_load. cbn [holder_].
    unfold load. cbn [block_index].
    destruct (Z.ltb_spec (meta_n (meta_ self) + Z.of_nat k) 0); [lia|].
    rewrite nth_error_app2 by lia.
    replace (Z.to_nat (meta_n (meta_ self) + Z.of_nat k) - length (holder_ self))%nat
      with k by lia.
    now rewrite Hk.
  - intros i Hi. rewrite !Trajectory_ControlPoint_load. cbn [holder_].
    apply load_app_old. lia.
  - reflexivity.
  - reflexivity.
  - rewrite length_app. lia.
Qed.

Lemma AppendKnots_appends_in_order_witness :
  AppendKnots (Trajectory [] (Meta 0 1 0)) example_holder = Returned example_trajectory.
Proof.
  destruct (AppendKnots_appends_in_order (Trajectory [] (Meta 0 1 0)) example_holder)
    as (self' & E & Hh & Hn & _ & _ & Ht0 & Hdt & _).
  - reflexivity.
  - rewrite E. destruct self' as [h [a b n]].
    cbn [holder_ meta_ meta_n meta_t0 meta_dt] in *. subst. reflexivity.
Defined.

(** X10. Appending a knot to a trajectory that stores its knots disturbs no
    evaluation: at every time whose window was valid before, [Evaluate]
    returns the same result afterwards; and the segment whose index was one
    past the last valid one, where [Evaluate] threw the range error, is valid
    afterwards. *)
Theorem AppendKnot_extends_evaluation (env : Environment)
    (self : UniformR3SplineTrajectory) (point : Vector3)
    (fresh : TrajectoryEvaluation) (t : R) (flags : Z) :
  knots_stored (holder_ self) (meta_ self) ->
  is_size_t (meta_n (meta_ self) + 1) ->
  is_int (index_of (AsView self) t) ->
  exists self',
    AppendKnot self point = Returned self' /\
    (4 <= meta_n (meta_ self) ->
     0 <= index_of (AsView self) t <= meta_n (meta_ self) - 4 ->
     exists r,
       Evaluate env (AsView self) fresh t flags = Returned r /\
       Evaluate env (AsView self') fresh t flags = Returned r) /\
    (3 <= meta_n (meta_ self) ->
     index_of (AsView self) t = meta_n (meta_ self) - 3 ->
     Evaluate env (AsView self) fresh t flags = Threw range_error /\
     exists r, Evaluate env (AsView self') fresh t flags = Returned r).
Proof.
  intros Hst Hsize Hint.
  eexists. split; [apply AppendKnot_eq|].
  set (self' := Trajectory _ _).
  assert (Hsize0 : is_size_t (NumKnots (AsView self))).
  { unfold knots_stored, is_size_t, NumKnots in *. cbn [AsView view_meta]. lia. }
  assert (Hidx : index_of (AsView self') t = index_of (AsView self) t) by reflexivity.
  assert (Hst' : knots_stored (view_holder (AsView self')) (view_meta (AsView self'))).
  { unfold knots_stored in *. cbn. rewrite length_app. simpl. lia. }
  split.
  - intros H4 Hw.
    destruct (Evaluate_returns env (AsView self) fresh t flags)
      as (c0 & c1 & c2 & c3 & L0 & L1 & L2 & L3 & E); try assumption.
    eexists. split; [exact E|].
    change (dt (AsView self)) with (dt (AsView self')).
    change (local_of (AsView self) t) with (local_of (AsView self') t).
    unfold knots_stored in Hst. cbn [AsView view_holder] in L0, L1, L2, L3.
    apply Evaluate_in_window; rewrite ?Hidx.
    + apply not_true_is_false.
      change (NumKnots (AsView self')) with (meta_n (meta_ self) + 1).
      rewrite window_check_spec by assumption.
      unfold outside_window. unfold NumKnots in *. cbn [AsView view_meta] in *. lia.
    + cbn [AsView view_holder holder_ self']. rewrite load_app_old; [exact L0|].
      unfold NumKnots in *. cbn [AsView view_meta] in *. lia.
    + cbn [AsView view_holder holder_ self']. rewrite load_app_old; [exact L1|].
      unfold NumKnots in *. cbn [AsView view_meta] in *. lia.
    + cbn [AsView view_holder holder_ self']. rewrite load_app_old; [exact L2|].
      unfold NumKnots in *. cbn [AsView view_meta] in *. lia.
    + cbn [AsView view_holder holder_ self']. rewrite load_app_old; [exact L3|].
      unfold NumKnots in *. cbn [AsView view_meta] in *. lia.
  - intros H3 Hlast. split.
    + apply Evaluate_outside_window.
      apply (window_check_spec _ _ Hsize0 Hint). unfold outside_window.
      unfold NumKnots. cbn [AsView view_meta]. lia.
    + assert (Hs' : is_size_t (NumKnots (AsView self'))) by exact Hsize.
      assert (Hi' : is_int (index_of (AsView self') t)) by (rewrite Hidx; exact Hint).
      assert (H4' : 4 <= NumKnots (AsView self')) by (unfold NumKnots; cbn; lia).
      assert (Hw' : 0 <= index_of (AsView self') t <= NumKnots (AsView self') - 4)
        by (rewrite Hidx, Hlast; unfold NumKnots; cbn; lia).
      destruct (Evaluate_returns env (AsView self') fresh t flags Hs' Hi' Hst' H4' Hw')
        as (c0 & c1 & c2 & c3 & _ & _ & _ & _ & E).
      eauto.
Qed.

Lemma example_index_seven_halves : index_of example_view (7 / 2) = 3.
Proof.
  unfold index_of, CalculateIndexAndInterpolationAmount, t0, dt. simpl.
  apply Zfloor_eq. simpl. lra.
Qed.

Lemma AppendKnot_extends_evaluation_witness :
  exists self',
    AppendKnot example_trajectory (V3 6 3 2) = Returned self' /\
    Evaluate example_env (AsView example_trajectory) example_fresh (7 / 2) 7
    = Threw range_error /\
    exists r, Evaluate example_env (AsView self') example_fresh (7 / 2) 7 = Returned r.
Proof.
  destruct (AppendKnot_extends_evaluation example_env example_trajectory (V3 6 3 2)
              example_fresh (7 / 2) 7) as (self' & E & _ & Hnew).
  - reflexivity.
  - unfold is_size_t, size_t_modulus. simpl. lia.
  - change (AsView example_trajectory) with example_view.
    rewrite example_index_seven_halves. apply is_int_small. lia.
  - exists self'. split; [exact E|]. apply Hnew.
    + simpl. lia.
    + change (AsView example_trajectory) with example_view.
      rewrite example_index_seven_halves. reflexivity.
Defined.

(** ** What a registration covers *)

Lemma index_of_monotone (self : UniformR3SplineView) (t t' : R) :
  (0 < dt self)%R -> (t <= t')%R -> index_of self t <= index_of self t'.
Proof.
  intros Hdt Hle. unfold index_of, CalculateIndexAndInterpolationAmount. cbn [fst].
  apply Zfloor_le. unfold Rdiv. apply Rmult_le_compat_r; [|lra].
  apply Rlt_le, Rinv_0_lt_compat, Hdt.
Qed.

(** X11. For a positive knot spacing and [t1 <= t2], on an interval on which
    the call is defined (the [int] arithmetic on the indices stays in range
    and the holder stores the blocks [i1 .. i2 + 3]), the blocks a
    registration appends are exactly the four-point windows [Evaluate] reads
    on the segments between the two resolved indices: the call returns, every
    knot of the window of every query time in [[t1, t2]] is exposed, a knot
    is exposed exactly when it lies in the window of a segment index between
    that of [t1] and that of [t2], and at least four knots are exposed. *)
Theorem AddToProblem_covers_interval (self : UniformR3SplineTrajectory)
    (t1 t2 : R) (o : Outputs) :
  let i1 := index_of (AsView self) t1 in
  let i2 := index_of (AsView self) t2 in
  (0 < dt (AsView self))%R -> (t1 <= t2)%R ->
  registration_fits_int i1 i2 ->
  (forall i, i1 <= i <= i2 + 3 -> stored (holder_ self) i) ->
  exists (exposed : list Z) (o' : Outputs),
    AddToProblem self [(t1, t2)] o = (Returned tt, o') /\
    parameter_blocks o' = parameter_blocks o ++ map BlockRef exposed /\
    (forall j, In j exposed -> ControlPoint (AsView self) j = Returned (BlockRef j)) /\
    (4 <= length exposed)%nat /\
    (forall tau k, (t1 <= tau <= t2)%R -> 0 <= k <= 3 ->
       In (index_of (AsView self) tau + k) exposed) /\
    (forall j, In j exposed <-> exists i0, i1 <= i0 <= i2 /\ i0 <= j <= i0 + 3).
Proof.
  intros i1 i2 Hdt Hle Hfits Hstored.
  assert (H12 : i1 <= i2) by now apply index_of_monotone.
  exists (int_range i1 (i2 + 4)). eexists.
  split; [now apply AddToProblem_single|].
  cbn [parameter_blocks]. fold i1 i2.
  split; [reflexivity|]. split; [|split; [|split]].
  - intros j Hj. apply int_range_In in Hj.
    unfold ControlPoint. cbn [AsView view_holder].
    apply holder_Parameter_stored, Hstored. lia.
  - rewrite int_range_length. lia.
  - intros tau k [Hlo Hhi] Hk. apply int_range_In.
    pose proof (index_of_monotone (AsView self) t1 tau Hdt Hlo) as H1.
    pose proof (index_of_monotone (AsView self) tau t2 Hdt Hhi) as H2.
    fold i1 in H1. fold i2 in H2. lia.
  - intros j. rewrite int_range_In. split.
    + intros Hj. destruct (Z_le_gt_dec (j - 3) i1) as [Hfirst|Hlater].
      * exists i1. lia.
      * exists (j - 3). lia.
    + intros (i0 & Hi0 & Hj). lia.
Qed.

Lemma AddToProblem_covers_interval_witness :
  exists exposed o',
    AddToProblem example_trajectory [((1 / 2)%R, (3 / 2)%R)] empty_outputs
    = (Returned tt, o') /\
    parameter_blocks o' = map BlockRef exposed /\
    In (index_of example_view 1 + 3) exposed /\ In 4 exposed /\ ~ In 5 exposed.
Proof.
  destruct (AddToProblem_covers_interval example_trajectory (1 / 2) (3 / 2) empty_outputs)
    as (exposed & o' & E & Hblocks & _ & _ & Hcover & Hin);
    change (AsView example_trajectory) with example_view in *;
    rewrite ?example_index_half, ?example_index_three_halves in *.
  - unfold dt. simpl. lra.
  - lra.
  - apply registration_fits_int_small; lia.
  - intros i Hi. unfold stored. simpl. lia.
  - exists exposed, o'. split; [exact E|]. split; [exact Hblocks|].
    split; [|split].
    + apply Hcover; [lra|lia].
    + apply Hin. exists 1. lia.
    + intros H5. apply Hin in H5. destruct H5 as (i0 & Hi0 & Hj). lia.
Defined.




(** ** Linearity in the control points *)

Lemma load_holder_add (a b : DataHolder) (i : Z) (x y : Vector3) :
  load a (BlockRef i) = Returned x ->
  load b (BlockRef i) = Returned y ->
  load (holder_add a b) (BlockRef i) = Returned (add3 x y).
Proof.
  unfold load, holder_add. cbn [block_index].
  destruct (Z.ltb_spec i 0); [discriminate|].
  generalize (Z.to_nat i). intros k. revert b k.
  induction a as [|a0 a IH]; intros b k Ha Hb.
  - destruct k; discriminate.
  - destruct b as [|b0 b]; [destruct k; discriminate|].
    destruct k as [|k]; simpl in *.
    + injection Ha as <-. injection Hb as <-. reflexivity.
    + now apply IH.
Qed.

Lemma load_holder_scale (s : R) (a : DataHolder) (i : Z) (x : Vector3) :
  load a (BlockRef i) = Returned x ->
  load (holder_scale s a) (BlockRef i) = Returned (scale3 s x).
Proof.
  unfold load, holder_scale. cbn [block_index].
  destruct (Z.ltb_spec i 0); [discriminate|].
  rewrite nth_error_map.
  destruct (nth_error a (Z.to_nat i)); [|discriminate].
  intros Hx. injection Hx as <-. reflexivity.
Qed.

Lemma blend_add (w : Vector4) (x0 x1 x2 x3 y0 y1 y2 y3 : Vector3) :
  blend w (add3 x0 y0) (add3 x1 y1) (add3 x2 y2) (add3 x3 y3)
  = add3 (blend w x0 x1 x2 x3) (blend w y0 y1 y2 y3).
Proof.
  unfold blend, add3, scale3, setZero. cbn [v3x v3y v3z]. f_equal; ring.
Qed.

Lemma blend_scale (w : Vector4) (s : R) (x0 x1 x2 x3 : Vector3) :
  blend w (scale3 s x0) (scale3 s x1) (scale3 s x2) (scale3 s x3)
  = scale3 s (blend w x0 x1 x2 x3).
Proof.
  unfold blend, add3, scale3, setZero. cbn [v3x v3y v3z]. f_equal; ring.
Qed.

(** X13. Each requested field of a valid evaluation is linear in the control
    points: on holders added block by block the position, the velocity and
    the acceleration are the sums of those of the two holders, and on a
    holder scaled by [s] they are [s] times those of the holder, under the
    same metadata, for any basis matrix. *)
Theorem Evaluate_linear_in_control_points (env : Environment) (a b : DataHolder)
    (m : SplineMeta) (fresh : TrajectoryEvaluation) (t : R) (flags : Z) (s : R) :
  is_size_t (meta_n m) -> is_int (index_of (View a m) t) ->
  knots_stored a m -> knots_stored b m ->
  4 <= meta_n m -> 0 <= index_of (View a m) t <= meta_n m - 4 ->
  exists ra rb rsum rscaled,
    Evaluate env (View a m) fresh t flags = Returned ra /\
    Evaluate env (View b m) fresh t flags = Returned rb /\
    Evaluate env (View (holder_add a b) m) fresh t flags = Returned rsum /\
    Evaluate env (View (holder_scale s a) m) fresh t flags = Returned rscaled /\
    (wants flags (EvalPosition env) = true ->
     position rsum = add3 (position ra) (position rb) /\
     position rscaled = scale3 s (position ra)) /\
    (wants flags (EvalVelocity env) = true ->
     velocity rsum = add3 (velocity ra) (velocity rb) /\
     velocity rscaled = scale3 s (velocity ra)) /\
    (wants flags (EvalAcceleration env) = true ->
     acceleration rsum = add3 (acceleration ra) (acceleration rb) /\
     acceleration rscaled = scale3 s (acceleration ra)).
Proof.
  intros Hn Hi Ha Hb H4 Hw.
  set (i0 := index_of (View a m) t) in *.
  destruct (Evaluate_returns env (View a m) fresh t flags Hn Hi Ha H4 Hw)
    as (x0 & x1 & x2 & x3 & La0 & La1 & La2 & La3 & Ea).
  destruct (Evaluate_returns env (View b m) fresh t flags Hn Hi Hb H4 Hw)
    as (y0 & y1 & y2 & y3 & Lb0 & Lb1 & Lb2 & Lb3 & Eb).
  change (index_of (View b m) t) with i0 in *. fold i0 in La0, La1, La2, La3.
  cbn [view_holder] in *.
  assert (Hguard : forall h,
            (let N := to_size_t (NumKnots (View h m)) in
             (N <? 4) || (index_of (View h m) t <? 0)
             || (to_size_t (index_of (View h m) t) >? to_size_t (N - 4))) = false).
  { intros h. cbv zeta. change (NumKnots (View h m)) with (meta_n m).
    change (index_of (View h m) t) with i0.
    apply not_true_is_false. rewrite window_check_spec by assumption.
    unfold outside_window. lia. }
  do 4 eexists. split; [exact Ea|]. split; [exact Eb|]. split; [|split].
  - apply (Evaluate_in_window env (View (holder_add a b) m) fresh t flags);
      [apply Hguard|..]; change (index_of (View (holder_add a b) m) t) with i0;
      cbn [view_holder]; apply load_holder_add; eassumption.
  - apply (Evaluate_in_window env (View (holder_scale s a) m) fresh t flags);
      [apply Hguard|..]; change (index_of (View (holder_scale s a) m) t) with i0;
      cbn [view_holder]; apply load_holder_scale; eassumption.
  - unfold evaluated; cbn [position velocity acceleration].
    split; [|split]; intros ->; split; first [apply blend_add | apply blend_scale].
Qed.

Lemma Evaluate_linear_in_control_points_witness :
  exists ra rscaled,
    Evaluate example_env example_view example_fresh (5 / 2) 7 = Returned ra /\
    Evaluate example_env (View (holder_scale 2 example_holder) (Meta 0 1 6))
             example_fresh (5 / 2) 7 = Returned rscaled /\
    position rscaled = scale3 2 (position ra) /\
    velocity rscaled = scale3 2 (velocity ra).
Proof.
  destruct (Evaluate_linear_in_control_points example_env example_holder example_holder
              (Meta 0 1 6) example_fresh (5 / 2) 7 2)
    as (ra & rb & rsum & rscaled & Ea & _ & _ & Es & Hp & Hv & _).
  - exact is_size_t_6.
  - change (View example_holder (Meta 0 1 6)) with example_view.
    rewrite example_index_inside. apply is_int_small. lia.
  - reflexivity.
  - reflexivity.
  - simpl. lia.
  - change (View example_holder (Meta 0 1 6)) with example_view.
    rewrite example_index_inside. simpl. lia.
  - exists ra, rscaled. split; [exact Ea|]. split; [exact Es|].
    split; [apply Hp|apply Hv]; reflexivity.
Defined.

(** ** Independence of the fields *)

(** X15. At a valid query a requested field does not depend on which other
    fields are requested with it: two calls that both request the position
    return the same position, and likewise for the velocity and the
    acceleration. *)
Theorem Evaluate_field_independent_of_other_flags (env : Environment)
    (self : UniformR3SplineView) (fresh : TrajectoryEvaluation) (t : R)
    (flags flags' : Z) :
  is_size_t (NumKnots self) -> is_int (index_of self t) ->
  knots_stored (view_holder self) (view_meta self) ->
  4 <= NumKnots self -> 0 <= index_of self t <= NumKnots self - 4 ->
  exists r r',
    Evaluate env self fresh t flags = Returned r /\
    Evaluate env self fresh t flags' = Returned r' /\
    (wants flags (EvalPosition env) = true -> wants flags' (EvalPosition env) = true ->
     position r = position r') /\
    (wants flags (EvalVelocity env) = true -> wants flags' (EvalVelocity env) = true ->
     velocity r = velocity r') /\
    (wants flags (EvalAcceleration env) = true ->
     wants flags' (EvalAcceleration env) = true ->
     acceleration r = acceleration r').
Proof.
  intros Hn Hi Hst H4 Hw.
  destruct (Evaluate_returns env self fresh t flags Hn Hi Hst H4 Hw)
    as (c0 & c1 & c2 & c3 & L0 & L1 & L2 & L3 & E).
  destruct (Evaluate_returns env self fresh t flags' Hn Hi Hst H4 Hw)
    as (d0 & d1 & d2 & d3 & L0' & L1' & L2' & L3' & E').
  rewrite L0 in L0'. rewrite L1 in L1'. rewrite L2 in L2'. rewrite L3 in L3'.
  injection L0' as <-. injection L1' as <-. injection L2' as <-. injection L3' as <-.
  do 2 eexists. split; [exact E|]. split; [exact E'|].
  unfold evaluated; cbn [position velocity acceleration].
  split; [|split]; intros -> ->; reflexivity.
Qed.

Lemma Evaluate_field_independent_of_other_flags_witness :
  exists r r',
    Evaluate example_env example_view example_fresh (5 / 2) 1 = Returned r /\
    Evaluate example_env example_view example_fresh (5 / 2) 7 = Returned r' /\
    position r = position r'.
Proof.
  destruct (Evaluate_field_independent_of_other_flags example_env example_view
              example_fresh (5 / 2) 1 7) as (r & r' & E & E' & Hp & _).
  - exact is_size_t_6.
  - rewrite example_index_inside. apply is_int_small. lia.
  - exact example_knots_stored.
  - unfold NumKnots. simpl. lia.
  - rewrite example_index_inside. unfold NumKnots. simpl. lia.
  - exists r, r'. split; [exact E|]. split; [exact E'|]. apply Hp; reflexivity.
Defined.
